(** * markdown-to-confluence: the front-matter splitter and the Confluence
    renderer of [convert.py], embedded in Rocq.

    Python [str] values are modelled as [string], one [ascii] per character
    (code points below 256); [bytes] values are modelled the same way, one
    [ascii] per byte.  The renderer object is a record that is threaded
    through every callback in a state-and-error monad. *)

From Stdlib Require Import String Ascii List ZArith Bool Lia.
From stdpp Require Import base option list gmap strings pretty.

Local Open Scope Z_scope.

(** Let [simpl] unfold string concatenation on a literal prefix. *)
Arguments String.append !s1 s2 : simpl nomatch.

(* ================================================================== *)
(** * The Python primitives that [convert.py] relies on *)
(* ================================================================== *)

Module Py.

(** The double quote character, and a helper that lets the long literals of
    the source be written with apostrophes where the source has double
    quotes (none of those literals contains an apostrophe of its own). *)
Definition dquote : ascii := ascii_of_nat 34.
Definition dq : string := String dquote EmptyString.
Definition nl : string := String (ascii_of_nat 10) EmptyString.

Fixpoint quoted (s : string) : string :=
  match s with
  | EmptyString => EmptyString
  | String c s' =>
      String (if Ascii.eqb c "'"%char then dquote else c) (quoted s')
  end.

Definition ord (c : ascii) : Z := Z.of_nat (nat_of_ascii c).

(** [s.startswith(p)] *)
Fixpoint startswith (p s : string) : bool :=
  match p, s with
  | EmptyString, _ => true
  | String a p', String b s' => Ascii.eqb a b && startswith p' s'
  | String _ _, EmptyString => false
  end.

(** [s[n:]] for [0 <= n] *)
Fixpoint drop (n : nat) (s : string) : string :=
  match n, s with
  | O, _ => s
  | S n', String _ s' => drop n' s'
  | S _, EmptyString => EmptyString
  end.

(** [s[:n]] for [0 <= n] *)
Fixpoint take (n : nat) (s : string) : string :=
  match n, s with
  | O, _ => EmptyString
  | S n', String c s' => String c (take n' s')
  | S _, EmptyString => EmptyString
  end.

(** [s.count(sub)] for a non-empty [sub]: the number of non-overlapping
    occurrences, scanning from the left.  [skip] is the number of
    characters of the last match still to be stepped over. *)
Fixpoint count_from (sub s : string) (skip : nat) : nat :=
  match s with
  | EmptyString => O
  | String _ s' =>
      match skip with
      | S k => count_from sub s' k
      | O =>
          if startswith sub s
          then S (count_from sub s' (Nat.pred (String.length sub)))
          else count_from sub s' O
      end
  end.

Definition count (s sub : string) : nat := count_from sub s O.

(** [s.replace(old, new)] for a non-empty [old]: every non-overlapping
    occurrence, scanning from the left, in a single pass. *)
Fixpoint replace_from (old new s : string) (skip : nat) : string :=
  match s with
  | EmptyString => EmptyString
  | String c s' =>
      match skip with
      | S k => replace_from old new s' k
      | O =>
          if startswith old s
          then new +:+ replace_from old new s' (Nat.pred (String.length old))
          else String c (replace_from old new s' O)
      end
  end.

Definition replace (s old new : string) : string := replace_from old new s O.

(** [c.isspace()] on the code points below 256. *)
Definition isspace (c : ascii) : bool :=
  let n := ord c in
  ((9 <=? n) && (n <=? 13)) || ((28 <=? n) && (n <=? 32))
  || (n =? 133) || (n =? 160).

Fixpoint lstrip (s : string) : string :=
  match s with
  | EmptyString => EmptyString
  | String c s' => if isspace c then lstrip s' else s
  end.

Fixpoint rstrip (s : string) : string :=
  match s with
  | EmptyString => EmptyString
  | String c s' =>
      match rstrip s' with
      | EmptyString => if isspace c then EmptyString else String c EmptyString
      | r => String c r
      end
  end.

(** [s.strip()] *)
Definition strip (s : string) : string := rstrip (lstrip s).

(** [sep.join(items)] *)
Fixpoint join (sep : string) (items : list string) : string :=
  match items with
  | [] => EmptyString
  | [x] => x
  | x :: rest => x +:+ sep +:+ join sep rest
  end.

(** The lines of a text file as [readlines()] returns them: the text is
    cut after every newline and each line keeps its newline; a last line
    without one is kept as it is. *)
Fixpoint readlines (s : string) : list string :=
  match s with
  | EmptyString => []
  | String c s' =>
      if Ascii.eqb c (ascii_of_nat 10) then nl :: readlines s'
      else match readlines s' with
           | [] => [String c EmptyString]
           | l :: ls => String c l :: ls
           end
  end.

(** Concatenation of a list of lines, [''.join(lines)]. *)
Definition cat (ls : list string) : string := fold_right String.append "" ls.

(** ** [str.format] and [%]-formatting

    The templates of [convert.py] use automatic fields and named fields
    [{name}] only; conversions, format specs, attribute or index lookups and
    numbered fields are not modelled and are rejected.  [field] is the name
    of the replacement field being read, if any.  [None] stands for the
    exception Python raises (a stray brace, a missing argument). *)
Definition unsupported_in_field (c : ascii) : bool :=
  Ascii.eqb c "{"%char || Ascii.eqb c "!"%char || Ascii.eqb c ":"%char
  || Ascii.eqb c "."%char || Ascii.eqb c "["%char.

Fixpoint kwarg (kwargs : list (string * string)) (name : string)
    : option string :=
  match kwargs with
  | [] => None
  | (k, v) :: rest => if String.eqb k name then Some v else kwarg rest name
  end.

Definition prepend (c : ascii) (r : option string) : option string :=
  match r with Some s => Some (String c s) | None => None end.

Definition prepend_str (v : string) (r : option string) : option string :=
  match r with Some s => Some (v +:+ s) | None => None end.

Fixpoint format_from (t : string) (field : option string)
    (args : list string) (kwargs : list (string * string)) : option string :=
  match t with
  | EmptyString =>
      match field with None => Some EmptyString | Some _ => None end
  | String c t' =>
      match field with
      | Some name =>
          if Ascii.eqb c "}"%char then
            if String.eqb name "" then
              match args with
              | v :: args' => prepend_str v (format_from t' None args' kwargs)
              | [] => None
              end
            else
              match kwarg kwargs name with
              | Some v => prepend_str v (format_from t' None args kwargs)
              | None => None
              end
          else if unsupported_in_field c then None
          else format_from t' (Some (name +:+ String c EmptyString))
                 args kwargs
      | None =>
          if Ascii.eqb c "{"%char then
            match t' with
            | String c2 t'' =>
                if Ascii.eqb c2 "{"%char
                then prepend "{"%char (format_from t'' None args kwargs)
                else format_from t' (Some EmptyString) args kwargs
            | EmptyString => None
            end
          else if Ascii.eqb c "}"%char then
            match t' with
            | String c2 t'' =>
                if Ascii.eqb c2 "}"%char
                then prepend "}"%char (format_from t'' None args kwargs)
                else None
            | EmptyString => None
            end
          else prepend c (format_from t' None args kwargs)
      end
  end.

(** [template.format(...)] with positional and keyword arguments *)
Definition format (template : string) (args : list string)
    (kwargs : list (string * string)) : option string :=
  format_from template None args kwargs.

(** [template % arg] for a single [str] argument and [%s] conversions. *)
Fixpoint percent_from (t : string) (arg : option string) : option string :=
  match t with
  | EmptyString =>
      match arg with None => Some EmptyString | Some _ => None end
  | String c t' =>
      if Ascii.eqb c "%"%char then
        match t' with
        | String c2 t'' =>
            if Ascii.eqb c2 "s"%char then
              match arg with
              | Some a => prepend_str a (percent_from t'' None)
              | None => None
              end
            else if Ascii.eqb c2 "%"%char
            then prepend "%"%char (percent_from t'' arg)
            else None
        | EmptyString => None
        end
      else prepend c (percent_from t' arg)
  end.

Definition percent (template arg : string) : option string :=
  percent_from template (Some arg).

(** ** [textwrap.dedent] *)

(** [text.split('\n')] *)
Fixpoint split_lines (s : string) : list string :=
  match s with
  | EmptyString => [EmptyString]
  | String c s' =>
      if Ascii.eqb c (ascii_of_nat 10) then EmptyString :: split_lines s'
      else match split_lines s' with
           | [] => [String c EmptyString]
           | l :: ls => String c l :: ls
           end
  end.

Definition is_blank (c : ascii) : bool :=
  Ascii.eqb c " "%char || Ascii.eqb c (ascii_of_nat 9).

Fixpoint all_chars (p : ascii -> bool) (s : string) : bool :=
  match s with
  | EmptyString => true
  | String c s' => p c && all_chars p s'
  end.

(** The leading run of spaces and tabs of a line. *)
Fixpoint indent_of (line : string) : string :=
  match line with
  | EmptyString => EmptyString
  | String c s' => if is_blank c then String c (indent_of s') else EmptyString
  end.

Fixpoint common_prefix (a b : string) : string :=
  match a, b with
  | String x a', String y b' =>
      if Ascii.eqb x y then String x (common_prefix a' b') else EmptyString
  | _, _ => EmptyString
  end.

(** Lines made of spaces and tabs only are emptied first; the margin is
    the longest common prefix of the indents of the remaining non-empty
    lines; it is then removed from every line that starts with it. *)
Definition blank_out (line : string) : string :=
  if all_chars is_blank line then EmptyString else line.

Definition margin_of (lines : list string) : option string :=
  fold_left
    (fun margin line =>
       match line with
       | EmptyString => margin
       | _ =>
           match margin with
           | None => Some (indent_of line)
           | Some m => Some (common_prefix m (indent_of line))
           end
       end)
    lines None.

Definition remove_margin (margin line : string) : string :=
  if startswith margin line then drop (String.length margin) line else line.

Definition dedent (text : string) : string :=
  let lines := map blank_out (split_lines text) in
  match margin_of lines with
  | Some (String c m) => join nl (map (remove_margin (String c m)) lines)
  | _ => join nl lines
  end.

(** ** [os.path.basename] (POSIX) *)

(** [s.rfind(c)] for a single character *)
Fixpoint rfind_char (c : ascii) (s : string) : Z :=
  match s with
  | EmptyString => -1
  | String x s' =>
      let r := rfind_char c s' in
      if 0 <=? r then r + 1 else if Ascii.eqb x c then 0 else -1
  end.

Definition basename (p : string) : string :=
  let i := rfind_char "/"%char p + 1 in
  drop (Z.to_nat i) p.

(** ** [json.dumps] with its default settings, on the values used here *)

#[local] Unset Elimination Schemes.
Inductive json :=
| JString (s : string)
| JObject (members : list (string * json)).
#[local] Set Elimination Schemes.

Definition hex_digit (n : Z) : ascii :=
  match String.get (Z.to_nat n) "0123456789abcdef" with
  | Some c => c
  | None => "0"%char
  end.

(** One character of a string under [ensure_ascii=True]. *)
Definition json_escape (c : ascii) : string :=
  let n := ord c in
  if Ascii.eqb c dquote then "\" +:+ dq
  else if Ascii.eqb c "\"%char then "\\"
  else if n =? 10 then "\n"
  else if n =? 13 then "\r"
  else if n =? 9 then "\t"
  else if n =? 8 then "\b"
  else if n =? 12 then "\f"
  else if (32 <=? n) && (n <=? 126) then String c EmptyString
  else "\u00" +:+ String (hex_digit (Z.shiftr n 4))
                    (String (hex_digit (Z.land n 15)) EmptyString).

Fixpoint json_escape_all (s : string) : string :=
  match s with
  | EmptyString => EmptyString
  | String c s' => json_escape c +:+ json_escape_all s'
  end.

Definition json_string (s : string) : string :=
  dq +:+ json_escape_all s +:+ dq.

Fixpoint dumps (j : json) : string :=
  match j with
  | JString s => json_string s
  | JObject members =>
      "{" +:+ join ", " (map (fun kv => json_string (fst kv) +:+ ": "
                                        +:+ dumps (snd kv)) members)
      +:+ "}"
  end.

(** ** [str.encode()] (UTF-8) and [base64.b64encode] *)

Fixpoint encode (s : string) : string :=
  match s with
  | EmptyString => EmptyString
  | String c s' =>
      let n := ord c in
      if n <? 128 then String c (encode s')
      else String (ascii_of_nat (Z.to_nat (Z.lor 192 (Z.shiftr n 6))))
             (String (ascii_of_nat (Z.to_nat (Z.lor 128 (Z.land n 63))))
                (encode s'))
  end.

Definition b64_char (n : Z) : ascii :=
  match String.get (Z.to_nat n)
    "ABCDEFGHIJKLMNOPQRSTUVWXYZabcdefghijklmnopqrstuvwxyz0123456789+/" with
  | Some c => c
  | None => "="%char
  end.

Fixpoint b64encode (bs : string) : string :=
  match bs with
  | EmptyString => EmptyString
  | String a EmptyString =>
      let a := ord a in
      String (b64_char (Z.shiftr a 2))
        (String (b64_char (Z.shiftl (Z.land a 3) 4)) "==")
  | String a (String b EmptyString) =>
      let a := ord a in
      let b := ord b in
      String (b64_char (Z.shiftr a 2))
        (String (b64_char (Z.lor (Z.shiftl (Z.land a 3) 4) (Z.shiftr b 4)))
           (String (b64_char (Z.shiftl (Z.land b 15) 2)) "="))
  | String a (String b (String c rest)) =>
      let a := ord a in
      let b := ord b in
      let c := ord c in
      String (b64_char (Z.shiftr a 2))
        (String (b64_char (Z.lor (Z.shiftl (Z.land a 3) 4) (Z.shiftr b 4)))
           (String (b64_char (Z.lor (Z.shiftl (Z.land b 15) 2) (Z.shiftr c 6)))
              (String (b64_char (Z.land c 63)) (b64encode rest))))
  end.

(** [data.decode("utf-8")] on the output of [b64encode], which is ASCII:
    the characters are the bytes. *)
Definition decode_ascii (bs : string) : string := bs.

(** Python truth value of a [str]. *)
Definition truthy (s : string) : bool := negb (String.eqb s "").

(** ** [urllib.parse.urlparse(url).netloc]

    The network location as CPython's [urlsplit] extracts it: leading
    control characters and spaces are dropped, tabs and line breaks
    removed, a leading scheme (a letter followed by letters, digits, [+],
    [-] or [.], up to the first colon) is cut off, and if what remains
    starts with two slashes the network location runs up to the next [/],
    [?] or [#].  [None] stands for the [ValueError] that [urlsplit] raises
    when the network location holds one square bracket without the other,
    or a bracketed host that fails the check of [_check_bracketed_netloc].
    The check of the host between the brackets (an IPv6 or IPvFuture
    literal, by the [ipaddress] module) is the parameter [host_ok].  The
    NFKC check of [_checknetloc] never fails on code points below 256. *)
Fixpoint find_char (c : ascii) (s : string) : Z :=
  match s with
  | EmptyString => -1
  | String x s' =>
      if Ascii.eqb x c then 0
      else let r := find_char c s' in if 0 <=? r then r + 1 else -1
  end.

Fixpoint lstrip_chars (p : ascii -> bool) (s : string) : string :=
  match s with
  | EmptyString => EmptyString
  | String c s' => if p c then lstrip_chars p s' else s
  end.

Fixpoint remove_chars (p : ascii -> bool) (s : string) : string :=
  match s with
  | EmptyString => EmptyString
  | String c s' =>
      if p c then remove_chars p s' else String c (remove_chars p s')
  end.

Fixpoint take_until (p : ascii -> bool) (s : string) : string :=
  match s with
  | EmptyString => EmptyString
  | String c s' => if p c then EmptyString else String c (take_until p s')
  end.

Definition is_ascii_alpha (c : ascii) : bool :=
  let n := ord c in
  ((65 <=? n) && (n <=? 90)) || ((97 <=? n) && (n <=? 122)).

Definition is_digit (c : ascii) : bool :=
  let n := ord c in (48 <=? n) && (n <=? 57).

Definition scheme_char (c : ascii) : bool :=
  is_ascii_alpha c || is_digit c || Ascii.eqb c "+"%char
  || Ascii.eqb c "-"%char || Ascii.eqb c "."%char.

Definition unsafe_url_char (c : ascii) : bool :=
  let n := ord c in (n =? 9) || (n =? 10) || (n =? 13).

Definition netloc_end (c : ascii) : bool :=
  Ascii.eqb c "/"%char || Ascii.eqb c "?"%char || Ascii.eqb c "#"%char.

(** [c in s] *)
Definition has_char (c : ascii) (s : string) : bool := 0 <=? find_char c s.

(** [s.partition(c)]: the text before the first [c], whether there is
    one, and the text after it. *)
Definition partition (c : ascii) (s : string) : string * bool * string :=
  let i := find_char c s in
  if 0 <=? i then (take (Z.to_nat i) s, true, drop (Z.to_nat (i + 1)) s)
  else (s, false, EmptyString).

(** [s.rpartition(c)[2]]: the text after the last [c], all of [s] when
    there is none. *)
Definition after_last (c : ascii) (s : string) : string :=
  drop (Z.to_nat (rfind_char c s + 1)) s.

(** [_check_bracketed_netloc(netloc)]: [false] when it raises. *)
Definition check_bracketed_netloc (host_ok : string -> bool)
    (netloc : string) : bool :=
  let hostname_and_port := after_last "@"%char netloc in
  let '(before_bracket, have_open_br, bracketed) :=
    partition "["%char hostname_and_port in
  if have_open_br then
    if truthy before_bracket then false
    else
      let '(hostname, _, port) := partition "]"%char bracketed in
      if truthy port && negb (startswith ":" port) then false
      else host_ok hostname
  else
    let '(hostname, _, _) := partition ":"%char hostname_and_port in
    host_ok hostname.

Definition urlsplit_netloc (host_ok : string -> bool) (url : string)
    : option string :=
  let url := lstrip_chars (fun c => ord c <=? 32) url in
  let url := remove_chars unsafe_url_char url in
  let i := find_char ":"%char url in
  let url :=
    if (0 <? i)
       && match url with String c _ => is_ascii_alpha c | _ => false end
       && all_chars scheme_char (take (Z.to_nat i) url)
    then drop (Z.to_nat (i + 1)) url
    else url in
  if startswith "//" url then
    let netloc := take_until netloc_end (drop 2 url) in
    let opening := has_char "["%char netloc in
    let closing := has_char "]"%char netloc in
    if (opening && negb closing) || (closing && negb opening) then None
    else if opening && closing then
      if check_bracketed_netloc host_ok netloc then Some netloc else None
    else Some netloc
  else Some EmptyString.

End Py.

(* ================================================================== *)
(** * The front-matter splitter: [parse] *)
(* ================================================================== *)

Module Splitter.
Import Py.

Definition YAML_BOUNDARY : string := "---".

(** The three local variables of [parse] that the loop updates. *)
Record scan_state := ScanState {
  raw_yaml : string;
  markdown : string;
  in_yaml : bool
}.

Definition scan_init : scan_state :=
  {| raw_yaml := ""; markdown := ""; in_yaml := true |}.

(** One iteration of the loop body of [parse]. *)
Definition scan_line (st : scan_state) (line : string) : scan_state :=
  let accumulate :=
    if in_yaml st
    then {| raw_yaml := raw_yaml st +:+ line; markdown := markdown st;
            in_yaml := in_yaml st |}
    else {| raw_yaml := raw_yaml st; markdown := markdown st +:+ line;
            in_yaml := in_yaml st |} in
  if String.eqb (strip line) YAML_BOUNDARY then
    if in_yaml st && truthy (raw_yaml st)
    then {| raw_yaml := raw_yaml st; markdown := markdown st;
            in_yaml := false |}
    else accumulate
  else accumulate.

Definition scan (lines : list string) (st : scan_state) : scan_state :=
  fold_left scan_line lines st.

(** The text outputs of [parse], before the YAML decoder runs: the
    front-matter text and the trimmed body. *)
Definition split_text (content : string) : string * string :=
  let st := scan (readlines content) scan_init in
  (raw_yaml st, strip (markdown st)).

Inductive parse_error := FileNotFoundError | YAMLError.

(** [parse(post_path)].  The file system maps a path to the text of the
    file; the YAML decoder [yaml_load] is PyYAML's and is a parameter,
    [None] standing for the decoder raising on malformed input. *)
Definition parse {Doc : Type} (yaml_load : string -> option Doc)
    (fs : gmap string string) (post_path : string)
    : parse_error + (Doc * string) :=
  match fs !! post_path with
  | None => inl FileNotFoundError
  | Some content =>
      let st := scan (readlines content) scan_init in
      match yaml_load (raw_yaml st) with
      | None => inl YAMLError
      | Some front_matter => inr (front_matter, strip (markdown st))
      end
  end.

Definition is_boundary (line : string) : bool :=
  String.eqb (strip line) YAML_BOUNDARY.

(** The same loop with two ghost variables that log which lines each
    buffer received. *)
Record ghost_state := GhostState {
  g_state : scan_state;
  front_lines : list string;
  body_lines : list string
}.

Definition ghost_init : ghost_state :=
  {| g_state := scan_init; front_lines := []; body_lines := [] |}.

Definition ghost_line (g : ghost_state) (line : string) : ghost_state :=
  let st := g_state g in
  let accumulate :=
    if in_yaml st
    then {| g_state := {| raw_yaml := raw_yaml st +:+ line;
                          markdown := markdown st; in_yaml := in_yaml st |};
            front_lines := front_lines g ++ [line];
            body_lines := body_lines g |}
    else {| g_state := {| raw_yaml := raw_yaml st;
                          markdown := markdown st +:+ line;
                          in_yaml := in_yaml st |};
            front_lines := front_lines g;
            body_lines := body_lines g ++ [line] |} in
  if String.eqb (strip line) YAML_BOUNDARY then
    if in_yaml st && truthy (raw_yaml st)
    then {| g_state := {| raw_yaml := raw_yaml st; markdown := markdown st;
                          in_yaml := false |};
            front_lines := front_lines g;
            body_lines := body_lines g |}
    else accumulate
  else accumulate.

Definition ghost_scan (lines : list string) (g : ghost_state) : ghost_state :=
  fold_left ghost_line lines g.

(** What the ghost variables mean: each buffer is the concatenation of the
    lines logged for it, and no logged line is empty. *)
Record ghost_inv (g : ghost_state) : Prop := {
  inv_front : raw_yaml (g_state g) = cat (front_lines g);
  inv_body : markdown (g_state g) = cat (body_lines g);
  inv_nonempty : Forall (fun l => l <> "") (front_lines g)
}.

(** What the scan does with [line] once the lines [pre] have been read:
    [g] is the ghost state after [pre], [st] the program state in it and
    [st'] the state after [line]. *)
Definition line_effect (pre : list string) (line : string) : Prop :=
  let g := ghost_scan pre ghost_init in
  let st := g_state g in
  let st' := scan_line st line in
  st = scan pre scan_init /\
  raw_yaml st = cat (front_lines g) /\
  markdown st = cat (body_lines g) /\
  (is_boundary line = true ->
     ((in_yaml st = true /\ in_yaml st' = false) <->
      (in_yaml st = true /\ front_lines g <> []))
     /\ (in_yaml st = true -> front_lines g <> [] ->
         st' = {| raw_yaml := raw_yaml st; markdown := markdown st;
                  in_yaml := false |}
         /\ front_lines (ghost_line g line) = front_lines g
         /\ body_lines (ghost_line g line) = body_lines g)
     /\ (in_yaml st = true -> front_lines g = [] ->
         st' = {| raw_yaml := line; markdown := markdown st;
                  in_yaml := true |}
         /\ front_lines (ghost_line g line) = [line]))
  /\ (in_yaml st = false ->
      st' = {| raw_yaml := raw_yaml st; markdown := markdown st +:+ line;
               in_yaml := false |}
      /\ body_lines (ghost_line g line) = body_lines g ++ [line]).

(** The documents of the tests: the pieces joined by newlines. *)
Definition doc_closing_only (Y B : string) : string :=
  join nl [Y; YAML_BOUNDARY; B].
Definition doc_one_leading (Y B : string) : string :=
  join nl [YAML_BOUNDARY; Y; YAML_BOUNDARY; B].
Definition doc_two_leading (Y B : string) : string :=
  join nl [YAML_BOUNDARY; YAML_BOUNDARY; Y; YAML_BOUNDARY; B].

(** The first line of a YAML block, as the scan meets it. *)
Definition first_line (Y : string) : string := hd "" (readlines (Y +:+ nl)).

(** A stand-in for the YAML decoder, enough to run the examples on flat
    front matter: every line is [key: value], blank lines and [---] lines
    are skipped, a later key overrides an earlier one, any other line is
    rejected. *)
Fixpoint partition_colon (s : string) : option (string * string) :=
  match s with
  | EmptyString => None
  | String c s' =>
      if Ascii.eqb c ":"%char then Some (EmptyString, s')
      else match partition_colon s' with
           | Some (k, v) => Some (String c k, v)
           | None => None
           end
  end.

Definition flat_yaml_line (acc : option (gmap string string)) (line : string)
    : option (gmap string string) :=
  match acc with
  | None => None
  | Some m =>
      let t := strip line in
      if String.eqb t "" || String.eqb t YAML_BOUNDARY then Some m
      else match partition_colon t with
           | Some (k, v) => Some (<[k := strip v]> m)
           | None => None
           end
  end.

Definition flat_yaml_load (text : string) : option (gmap string string) :=
  fold_left flat_yaml_line (readlines text) (Some ∅).

(** The YAML block and the body of the tests of the repository. *)
Definition have_yaml : string :=
  "authors:
  - username1
  - username2
title: Test
wiki:
  share: true
  space: ~username
  ancestor_id: 12345678
".

Definition have_markdown : string :=
  "# Heading

```yaml
---
content
---
```
".

(** A flat post in the three layouts, as files. *)
Definition flat_yaml : string := "title: Test" +:+ nl +:+ "wiki: docs" +:+ nl.
Definition flat_markdown : string :=
  "# Heading" +:+ nl +:+ nl +:+ "---" +:+ nl +:+ "content" +:+ nl.

Definition posts : gmap string string :=
  <["zero.md" := doc_closing_only flat_yaml flat_markdown]>
  (<["one.md" := doc_one_leading flat_yaml flat_markdown]>
  (<["two.md" := doc_two_leading flat_yaml flat_markdown]> ∅)).

End Splitter.

(* ================================================================== *)
(** * The Confluence renderer *)
(* ================================================================== *)

Module Renderer.
Import Py.

(** The methods of [mistune.HTMLRenderer] that the overrides reach through
    [super()], with the parameters in the order [HTMLRenderer] declares
    them: [heading(text, level)], [block_quote(text)],
    [link(link, text, title)] where [text] and [title] may be [None], and
    [text(text)] on a [str].  [super_method name] is any other inherited
    method, applied to the rendered children of a node. *)
Class HTMLRenderer := {
  super_heading : string -> Z -> string;
  super_block_quote : string -> string;
  super_link : string -> option string -> option string -> string;
  super_text : string -> string;
  super_method : string -> string -> string
}.

(** [urlparse(url).netloc]: the network location the standard library
    finds in [url], [None] when [urlparse] raises [ValueError]. *)
Class UrlParse := { netloc : string -> option string }.

(** The instance attributes set by [__init__]. *)
Record ConfluenceRenderer := {
  attachments : list string;
  authors : list string;
  has_toc : bool;
  top_heading : option string
}.

(** Values a front matter holds for the keys read here, and that may be
    passed as [authors]. *)
Inductive value :=
| VNone
| VStr (s : string)
| VList (items : list string).

Fixpoint chars (s : string) : list string :=
  match s with
  | EmptyString => []
  | String c s' => String c EmptyString :: chars s'
  end.

(** [ConfluenceRenderer(authors=...)].  The attribute keeps the sequence
    that [render_authors] iterates over (a [str] is iterated character by
    character). *)
Definition new_renderer (authors : value) : ConfluenceRenderer :=
  {| attachments := [];
     authors := match authors with
                | VNone => []
                | VList items => items
                | VStr s => chars s
                end;
     has_toc := false;
     top_heading := None |}.

(** ** Methods run in a state-and-error monad over [self] *)

Definition M (A : Type) : Type :=
  ConfluenceRenderer -> option (A * ConfluenceRenderer).

Definition ret {A : Type} (a : A) : M A := fun self => Some (a, self).

Definition bind {A B : Type} (m : M A) (k : A -> M B) : M B :=
  fun self =>
    match m self with
    | Some (a, self') => k a self'
    | None => None
    end.

Definition raise {A : Type} : M A := fun _ => None.

(** An operation that may raise and does not touch [self]. *)
Definition lift {A : Type} (o : option A) : M A :=
  fun self => match o with Some a => Some (a, self) | None => None end.

Definition get_self : M ConfluenceRenderer := fun self => Some (self, self).

Definition set_has_toc (b : bool) : M unit :=
  fun self =>
    Some (tt, {| attachments := attachments self; authors := authors self;
                 has_toc := b; top_heading := top_heading self |}).

Definition set_top_heading (text : string) : M unit :=
  fun self =>
    Some (tt, {| attachments := attachments self; authors := authors self;
                 has_toc := has_toc self; top_heading := Some text |}).

(** [self.attachments.append(src)] *)
Definition append_attachment (src : string) : M unit :=
  fun self =>
    Some (tt, {| attachments := attachments self ++ [src];
                 authors := authors self; has_toc := has_toc self;
                 top_heading := top_heading self |}).

Notation "x <- m ;; k" := (bind m (fun x => k))
  (at level 100, m at next level, right associativity).
Notation "m ;;; k" := (bind m (fun _ => k))
  (at level 100, right associativity).

Section Methods.
Context {R : HTMLRenderer} {U : UrlParse}.

Definition heading (text : string) (level : Z) : M string :=
  set_has_toc true ;;;
  self <- get_self ;;
  if match top_heading self with None => true | Some _ => false end
     && (level =? 1)
  then set_top_heading text ;;; ret ""
  else ret (super_heading text level).

Definition author_template : string :=
  quoted "<ac:structured-macro ac:name='profile-picture' ac:schema-version='1'>
                <ac:parameter ac:name='User'><ri:user ri:userkey='{user_key}' /></ac:parameter>
            </ac:structured-macro>&nbsp;
            <ac:link><ri:user ri:userkey='{user_key}' /></ac:link>".

Fixpoint format_authors (user_keys : list string) : option (list string) :=
  match user_keys with
  | [] => Some []
  | user_key :: rest =>
      match format author_template [] [("user_key", user_key)],
            format_authors rest with
      | Some a, Some r => Some (a :: r)
      | _, _ => None
      end
  end.

Definition render_authors : M string :=
  self <- get_self ;;
  fragments <- lift (format_authors (authors self)) ;;
  let author_content := join "<br />" fragments in
  lift (format "<h1>Authors</h1><p>{}</p>" [author_content] []).

Definition toc_template : string :=
  dedent (quoted "
            <h1>Table of Contents</h1>
            <p><ac:structured-macro ac:name='toc' ac:schema-version='1'>
                <ac:parameter ac:name='exclude'>^(Authors|Table of Contents)$</ac:parameter>
            </ac:structured-macro></p>").

Definition column_template : string :=
  dedent (quoted "
            <ac:structured-macro ac:name='column' ac:schema-version='1'>
                <ac:parameter ac:name='width'>{width}</ac:parameter>
                <ac:rich-text-body>{content}</ac:rich-text-body>
            </ac:structured-macro>").

Definition layout (content : string) : M string :=
  self <- get_self ;;
  let toc := toc_template in
  let toc := if negb (has_toc self) then "" else toc in
  authors <- render_authors ;;
  let column := column_template in
  sidebar <- lift (format column []
                     [("width", "30%"); ("content", toc +:+ authors)]) ;;
  main_content <- lift (format column []
                          [("width", "800px"); ("content", content)]) ;;
  ret (sidebar +:+ main_content).

Definition mermaid_payload (code : string) : json :=
  JObject [("code", JString code);
           ("mermaid", JObject [("theme", JString "default")])].

Definition block_mermaid (code : string) : M string :=
  let data := b64encode (encode (dumps (mermaid_payload code))) in
  src <- lift (percent "https://mermaid.ink/img/%s" (decode_ascii data)) ;;
  let tag_template := "<ac:image>{image_tag}</ac:image>" in
  image_tag <- lift (format (quoted "<ri:url ri:value='{}' />") [src] []) ;;
  lift (format tag_template [] [("image_tag", image_tag)]).

Definition block_quote (content : string) : M string :=
  let stripped :=
    if Nat.eqb (count content "</p>") 1
    then replace (replace content "<p>" "") "</p>" ""
    else content in
  ret (super_block_quote stripped).

Definition code_template : string :=
  dedent (quoted "            <ac:structured-macro ac:name='code' ac:schema-version='1'>
                <ac:parameter ac:name='language'>{l}</ac:parameter>
                <ac:plain-text-body><![CDATA[{c}]]></ac:plain-text-body>
            </ac:structured-macro>
        ").

(** [lang or ''] *)
Definition or_empty (lang : option string) : string :=
  match lang with Some l => l | None => "" end.

Definition block_code (code : string) (lang : option string) : M string :=
  if match lang with Some l => String.eqb l "mermaid" | None => false end
  then block_mermaid code
  else lift (format code_template [] [("c", code); ("l", or_empty lang)]).

(** [title] and [alt_text] are not used; they may be [None]. *)
Definition image (src : string) (title alt_text : option string)
    : M string :=
  parsed_netloc <- lift (netloc src) ;;
  let is_external := truthy parsed_netloc in
  let tag_template := "<ac:image>{image_tag}</ac:image>" in
  image_tag <- lift (format (quoted "<ri:url ri:value='{}' />") [src] []) ;;
  image_tag <-
    (if negb is_external then
       image_tag <- lift (format (quoted "<ri:attachment ri:filename='{}' />")
                            [basename src] []) ;;
       append_attachment src ;;;
       ret image_tag
     else ret image_tag) ;;
  lift (format tag_template [] [("image_tag", image_tag)]).

(** [title] and [content] may be [None]; [super().text(None)] raises,
    the escaping it does being a method call on its argument. *)
Definition link (link : string) (title content : option string)
    : M string :=
  parsed_netloc <- lift (netloc link) ;;
  let is_external := truthy parsed_netloc in
  if is_external then ret (super_link link title content)
  else match content with
       | Some text => ret (super_text text)
       | None => raise
       end.

End Methods.

(** ** The Markdown engine

    The engine parses the body into a tree and renders it in one forward
    pass in document order: the children of a node are rendered first and
    their outputs concatenated, then the method for the node is called on
    the result.  The engine passes the arguments by position, in the
    order its own renderer declares them: [image(src, alt, title)],
    [link(link, text, title)] with [text] the rendered children and
    [title] possibly [None], [heading(text, level)], [block_code(code,
    info)], [block_quote(text)].  Every node without an override goes to
    the inherited method of its name.  As in Markdown, a heading holds
    inline nodes only. *)
#[local] Unset Elimination Schemes.
Inductive inline :=
| Text (text : string)
| Image (src alt : string) (title : option string)
| Link (link : string) (text : list inline) (title : option string)
| Span (method : string) (content : list inline).

Inductive block :=
| Heading (content : list inline) (level : Z)
| BlockCode (code : string) (lang : option string)
| BlockQuote (content : list block)
| Leaf (method : string) (content : list inline)
| Container (method : string) (content : list block).
#[local] Set Elimination Schemes.

(** The parser of [mistune.create_markdown(..., plugins=[plugin_table])]. *)
Class Markdown := { parse_markdown : string -> list block }.

Section Engine.
Context {R : HTMLRenderer} {U : UrlParse}.

Fixpoint render_inline (n : inline) : M string :=
  let fix render_children (ns : list inline) : M string :=
    match ns with
    | [] => ret ""
    | n :: rest =>
        a <- render_inline n ;;
        b <- render_children rest ;;
        ret (a +:+ b)
    end in
  match n with
  | Text text => ret (super_text text)
  | Image src alt title => image src (Some alt) title
  | Link href text title =>
      inner <- render_children text ;; link href (Some inner) title
  | Span method content =>
      inner <- render_children content ;; ret (super_method method inner)
  end.

Fixpoint render_inlines (ns : list inline) : M string :=
  match ns with
  | [] => ret ""
  | n :: rest =>
      a <- render_inline n ;;
      b <- render_inlines rest ;;
      ret (a +:+ b)
  end.

Fixpoint render_block (n : block) : M string :=
  let fix render_children (ns : list block) : M string :=
    match ns with
    | [] => ret ""
    | n :: rest =>
        a <- render_block n ;;
        b <- render_children rest ;;
        ret (a +:+ b)
    end in
  match n with
  | Heading content level =>
      inner <- render_inlines content ;; heading inner level
  | BlockCode code lang => block_code code lang
  | BlockQuote content =>
      inner <- render_children content ;; block_quote inner
  | Leaf method content =>
      inner <- render_inlines content ;; ret (super_method method inner)
  | Container method content =>
      inner <- render_children content ;; ret (super_method method inner)
  end.

Fixpoint render (ns : list block) : M string :=
  match ns with
  | [] => ret ""
  | n :: rest =>
      a <- render_block n ;;
      b <- render rest ;;
      ret (a +:+ b)
  end.

Context {Md : Markdown}.

(** [front_matter.get(key, default)] *)
Definition dict_get (d : gmap string value) (key : string) (default : value)
    : value :=
  match d !! key with Some v => v | None => default end.

Definition convtoconf (markdown : string)
    (front_matter : option (gmap string value))
    : option (string * list string * value) :=
  let front_matter :=
    match front_matter with None => ∅ | Some d => d end in
  let author_keys := dict_get front_matter "author_keys" (VList []) in
  let renderer := new_renderer author_keys in
  match render (parse_markdown markdown) renderer with
  | None => None
  | Some (page_html, renderer) =>
      let title :=
        dict_get front_matter "title"
          (match top_heading renderer with
           | None => VNone
           | Some text => VStr text
           end) in
      Some (page_html, attachments renderer, title)
  end.

(** ** What a document contains, read off its tree *)

(** The image sources of a document, in order of appearance. *)
Fixpoint inline_images (n : inline) : list string :=
  let fix children_images (ns : list inline) : list string :=
    match ns with
    | [] => []
    | n :: rest => inline_images n ++ children_images rest
    end in
  match n with
  | Text _ => []
  | Image src _ _ => [src]
  | Link _ text _ => children_images text
  | Span _ content => children_images content
  end.

Fixpoint inlines_images (ns : list inline) : list string :=
  match ns with
  | [] => []
  | n :: rest => inline_images n ++ inlines_images rest
  end.

Fixpoint block_images (n : block) : list string :=
  let fix children_images (ns : list block) : list string :=
    match ns with
    | [] => []
    | n :: rest => block_images n ++ children_images rest
    end in
  match n with
  | Heading content _ => inlines_images content
  | BlockCode _ _ => []
  | BlockQuote content => children_images content
  | Leaf _ content => inlines_images content
  | Container _ content => children_images content
  end.

Fixpoint blocks_images (ns : list block) : list string :=
  match ns with
  | [] => []
  | n :: rest => block_images n ++ blocks_images rest
  end.

Definition is_internal (src : string) : bool :=
  match netloc src with
  | Some parsed_netloc => negb (truthy parsed_netloc)
  | None => false
  end.

(** Whether the pass over a node returns: [urlparse] accepts the source
    of every image and the target of every link, and every link whose
    target has no network location carries a title. *)
Definition link_accepts (href : string) (title : option string) : bool :=
  match netloc href with
  | None => false
  | Some parsed_netloc =>
      truthy parsed_netloc
      || match title with Some _ => true | None => false end
  end.

Fixpoint inline_accepts (n : inline) : bool :=
  let fix children_accept (ns : list inline) : bool :=
    match ns with
    | [] => true
    | n :: rest => inline_accepts n && children_accept rest
    end in
  match n with
  | Text _ => true
  | Image src _ _ =>
      match netloc src with Some _ => true | None => false end
  | Link href text title => children_accept text && link_accepts href title
  | Span _ content => children_accept content
  end.

Fixpoint inlines_accept (ns : list inline) : bool :=
  match ns with
  | [] => true
  | n :: rest => inline_accepts n && inlines_accept rest
  end.

Fixpoint block_accepts (n : block) : bool :=
  let fix children_accept (ns : list block) : bool :=
    match ns with
    | [] => true
    | n :: rest => block_accepts n && children_accept rest
    end in
  match n with
  | Heading content _ => inlines_accept content
  | BlockCode _ _ => true
  | BlockQuote content => children_accept content
  | Leaf _ content => inlines_accept content
  | Container _ content => children_accept content
  end.

Fixpoint blocks_accept (ns : list block) : bool :=
  match ns with
  | [] => true
  | n :: rest => block_accepts n && blocks_accept rest
  end.

(** The text a heading is called with: its content as rendered. *)
Definition rendered (content : list inline) : string :=
  match render_inlines content (new_renderer VNone) with
  | Some (text, _) => text
  | None => ""
  end.

(** The headings of a document in document order, as [(text, level)]. *)
Fixpoint block_headings (n : block) : list (string * Z) :=
  let fix children_headings (ns : list block) : list (string * Z) :=
    match ns with
    | [] => []
    | n :: rest => block_headings n ++ children_headings rest
    end in
  match n with
  | Heading content level => [(rendered content, level)]
  | BlockCode _ _ => []
  | BlockQuote content => children_headings content
  | Leaf _ _ => []
  | Container _ content => children_headings content
  end.

Fixpoint blocks_headings (ns : list block) : list (string * Z) :=
  match ns with
  | [] => []
  | n :: rest => block_headings n ++ blocks_headings rest
  end.

(** Whether a top heading has been captured already. *)
Definition captured (self : ConfluenceRenderer) : bool :=
  match top_heading self with Some _ => true | None => false end.

(** The text of the first level-1 heading among [calls]. *)
Fixpoint first_h1 (calls : list (string * Z)) : option string :=
  match calls with
  | [] => None
  | (text, level) :: rest => if level =? 1 then Some text else first_h1 rest
  end.

(** Successive calls of [heading], as the engine makes them. *)
Fixpoint headings (calls : list (string * Z)) : M (list string) :=
  match calls with
  | [] => ret []
  | (text, level) :: rest =>
      a <- heading text level ;;
      r <- headings rest ;;
      ret (a :: r)
  end.

(** What the spec says those calls return: the first level-1 heading met
    while no top heading is [captured] returns the empty string, every
    other heading the default rendering. *)
Fixpoint expected_headings (captured : bool) (calls : list (string * Z))
    : list string :=
  match calls with
  | [] => []
  | (text, level) :: rest =>
      if negb captured && (level =? 1)
      then "" :: expected_headings true rest
      else super_heading text level :: expected_headings captured rest
  end.

(** The number of calls among [calls] after which [top_heading] differs
    from what it was before the call. *)
Fixpoint top_heading_changes (calls : list (string * Z))
    (self : ConfluenceRenderer) : nat :=
  match calls with
  | [] => O
  | (text, level) :: rest =>
      match heading text level self with
      | Some (_, self') =>
          ((if bool_decide (top_heading self' = top_heading self)
            then 0 else 1) + top_heading_changes rest self')%nat
      | None => O
      end
  end.

End Engine.

(** ** Updates of [self], to state what a method leaves behind *)

Definition add_attachments (self : ConfluenceRenderer) (srcs : list string)
    : ConfluenceRenderer :=
  {| attachments := attachments self ++ srcs; authors := authors self;
     has_toc := has_toc self; top_heading := top_heading self |}.

Definition after_headings (self : ConfluenceRenderer)
    (calls : list (string * Z)) : ConfluenceRenderer :=
  {| attachments := attachments self; authors := authors self;
     has_toc := match calls with [] => has_toc self | _ => true end;
     top_heading := match top_heading self with
                    | Some text => Some text
                    | None => first_h1 calls
                    end |}.

(** [self] after a pass that made the heading calls [calls] and met the
    internal images [srcs]. *)
Definition after_render (self : ConfluenceRenderer)
    (calls : list (string * Z)) (srcs : list string) : ConfluenceRenderer :=
  add_attachments (after_headings self calls) srcs.

Section WalkInvariants.
Context {R : HTMLRenderer} {U : UrlParse}.

(** An inline node that the pass accepts renders to a text that does not
    depend on [self], and only adds the internal images it holds to the
    attachments; on any other node the pass raises. *)
Definition inline_ok (n : inline) : Prop :=
  exists out : string, forall self : ConfluenceRenderer,
    render_inline n self =
    if inline_accepts n
    then Some (out, add_attachments self
                      (List.filter is_internal (inline_images n)))
    else None.

Definition inlines_ok (ns : list inline) : Prop :=
  exists out : string, forall self : ConfluenceRenderer,
    render_inlines ns self =
    if inlines_accept ns
    then Some (out, add_attachments self
                      (List.filter is_internal (inlines_images ns)))
    else None.

(** A block that the pass accepts leaves [self] as the heading calls and
    the internal images it holds make it; on any other block the pass
    raises. *)
Definition block_ok (n : block) : Prop :=
  forall self : ConfluenceRenderer, exists out : string,
    render_block n self =
    if block_accepts n
    then Some (out, after_render self (block_headings n)
                      (List.filter is_internal (block_images n)))
    else None.

Definition blocks_ok (ns : list block) : Prop :=
  forall self : ConfluenceRenderer, exists out : string,
    render ns self =
    if blocks_accept ns
    then Some (out, after_render self (blocks_headings ns)
                      (List.filter is_internal (blocks_images ns)))
    else None.

End WalkInvariants.

(** ** The fragments the spec names, written out *)

Definition url_image (src : string) : string :=
  "<ac:image><ri:url ri:value=" +:+ dq +:+ src +:+ dq +:+ " /></ac:image>".

Definition attachment_image (filename : string) : string :=
  "<ac:image><ri:attachment ri:filename=" +:+ dq +:+ filename +:+ dq
  +:+ " /></ac:image>".

Definition column_macro (width body : string) : string :=
  nl +:+ quoted "<ac:structured-macro ac:name='column' ac:schema-version='1'>"
  +:+ nl +:+ quoted "    <ac:parameter ac:name='width'>" +:+ width
  +:+ "</ac:parameter>"
  +:+ nl +:+ "    <ac:rich-text-body>" +:+ body +:+ "</ac:rich-text-body>"
  +:+ nl +:+ "</ac:structured-macro>".

Definition toc_macro : string :=
  nl +:+ "<h1>Table of Contents</h1>"
  +:+ nl +:+ quoted "<p><ac:structured-macro ac:name='toc' ac:schema-version='1'>"
  +:+ nl +:+ quoted "    <ac:parameter ac:name='exclude'>"
  +:+ "^(Authors|Table of Contents)$" +:+ "</ac:parameter>"
  +:+ nl +:+ "</ac:structured-macro></p>".

Definition author_macro (user_key : string) : string :=
  quoted "<ac:structured-macro ac:name='profile-picture' ac:schema-version='1'>"
  +:+ nl +:+ "                "
  +:+ quoted "<ac:parameter ac:name='User'><ri:user ri:userkey='" +:+ user_key
  +:+ quoted "' /></ac:parameter>"
  +:+ nl +:+ "            </ac:structured-macro>&nbsp;"
  +:+ nl +:+ "            "
  +:+ quoted "<ac:link><ri:user ri:userkey='" +:+ user_key
  +:+ quoted "' /></ac:link>".

Definition authors_fragment (user_keys : list string) : string :=
  "<h1>Authors</h1><p>" +:+ join "<br />" (map author_macro user_keys)
  +:+ "</p>".

(** ** Concrete libraries to run the renderer with *)

(** [mistune.escape] *)
Definition escape (s : string) : string :=
  replace (replace (replace (replace s "&" "&amp;") "<" "&lt;") ">" "&gt;")
    dq "&quot;".

(** Defaults after mistune's [HTMLRenderer], to run examples: [heading]
    and [block_quote] are as the tests of the repository show them;
    [link(link, text, title)] writes the title when it is not empty and
    the text, or the target when the text is [None] or empty, with
    [escape] standing for the library's escaping of titles and the target
    written as it is, the library's replacement of targets with a scripting
    scheme being left out; [text] escapes; [paragraph] is the only other
    method spelled out.  No statement below rests on the anchor these
    defaults write. *)
Definition html_defaults : HTMLRenderer := {|
  super_heading text level :=
    "<h" +:+ pretty level +:+ ">" +:+ text +:+ "</h" +:+ pretty level
    +:+ ">" +:+ nl;
  super_block_quote text :=
    "<blockquote>" +:+ nl +:+ text +:+ "</blockquote>" +:+ nl;
  super_link href text title :=
    "<a href=" +:+ dq +:+ href +:+ dq
    +:+ match title with
        | Some (String c t) => " title=" +:+ dq +:+ escape (String c t) +:+ dq
        | _ => ""
        end
    +:+ ">"
    +:+ match text with
        | Some (String c t) => String c t
        | _ => href
        end
    +:+ "</a>";
  super_text := escape;
  super_method name content :=
    if String.eqb name "paragraph" then "<p>" +:+ content +:+ "</p>" +:+ nl
    else "<" +:+ name +:+ ">" +:+ content +:+ "</" +:+ name +:+ ">"
|}.

Definition cpython_urlparse (host_ok : string -> bool) : UrlParse :=
  {| netloc := urlsplit_netloc host_ok |}.

(** A host check to run examples whose URLs hold no bracketed host. *)
Definition no_bracketed_host : string -> bool := fun _ => false.

(** The diagram of the repository's test and the URL it expects. *)
Definition test_diagram : string :=
  "graph TD
    A[Holiday] -->|Get money| B(Go shopping)
    B --> C{Let me think}
    C -->|One| D[Laptop]
    C -->|Two| E[iPhone]
    C -->|Three| F[fa:fa-car Car]
        ".

Definition test_diagram_url : string :=
  "https://mermaid.ink/img/eyJjb2RlIjogImdyYXBoIFREXG4gICAgQVtIb2xpZGF5XSAtLT58R2V0IG1vbmV5fCBCKEdvIHNob3BwaW5nKVxuICAgIEIgLS0+IEN7TGV0IG1lIHRoaW5rfVxuICAgIEMgLS0+fE9uZXwgRFtMYXB0b3BdXG4gICAgQyAtLT58VHdvfCBFW2lQaG9uZV1cbiAgICBDIC0tPnxUaHJlZXwgRltmYTpmYS1jYXIgQ2FyXVxuICAgICAgICAiLCAibWVybWFpZCI6IHsidGhlbWUiOiAiZGVmYXVsdCJ9fQ==".

Definition not_char (c : ascii) (x : ascii) : bool := negb (Ascii.eqb x c).

End Renderer.

(* ================================================================== *)
(** * Vocabulary for further properties of the code *)
(* ================================================================== *)

Module Extras.
Import Py Splitter Renderer.

Definition starts_with_space (s : string) : bool :=
  match s with
  | String c _ => isspace c
  | EmptyString => false
  end.

Fixpoint ends_with_space (s : string) : bool :=
  match s with
  | EmptyString => false
  | String c EmptyString => isspace c
  | String _ s' => ends_with_space s'
  end.

(** How the scan has cut the text [done] it has read so far: either
    everything is still front matter, or one boundary line [closing] was
    dropped between a non-empty front matter and the body. *)
Definition partitioned (st : scan_state) (done : string) : Prop :=
  (in_yaml st = true /\ raw_yaml st = done /\ markdown st = "")
  \/ (in_yaml st = false /\ raw_yaml st <> "" /\
      exists closing : string,
        is_boundary closing = true /\
        done = raw_yaml st +:+ closing +:+ markdown st).

(** The characters of the base64 alphabet and its padding. *)
Definition is_b64 (c : ascii) : bool :=
  is_ascii_alpha c || is_digit c || Ascii.eqb c "+"%char
  || Ascii.eqb c "/"%char || Ascii.eqb c "="%char.

(** The printable ASCII characters, space to tilde. *)
Definition is_printable (c : ascii) : bool :=
  (32 <=? ord c) && (ord c <=? 126).

(** [lang == "mermaid"] *)
Definition is_mermaid (lang : option string) : bool :=
  match lang with Some l => String.eqb l "mermaid" | None => false end.

(** The code macro, written out. *)
Definition code_macro (lang code : string) : string :=
  quoted "<ac:structured-macro ac:name='code' ac:schema-version='1'>"
  +:+ nl +:+ quoted "    <ac:parameter ac:name='language'>" +:+ lang
  +:+ "</ac:parameter>"
  +:+ nl +:+ "    <ac:plain-text-body><![CDATA[" +:+ code
  +:+ "]]></ac:plain-text-body>"
  +:+ nl +:+ "</ac:structured-macro>" +:+ nl.

End Extras.

(* ================================================================== *)
(** * Properties of the string primitives *)
(* ================================================================== *)

Module PyFacts.
Import Py.

Lemma app_assoc_s (a b c : string) : (a +:+ b) +:+ c = a +:+ (b +:+ c).
Proof. induction a as [|x a IH]; cbn; [reflexivity | f_equal; exact IH]. Qed.

Lemma app_nil_r_s (a : string) : a +:+ "" = a.
Proof. induction a as [|x a IH]; cbn; [reflexivity | f_equal; exact IH]. Qed.

Lemma app_eq_nil_s (a b : string) : a +:+ b = "" -> a = "" /\ b = "".
Proof. destruct a; simpl; [auto | discriminate]. Qed.

Lemma cat_app (xs ys : list string) : cat (xs ++ ys) = cat xs +:+ cat ys.
Proof.
  induction xs as [|x xs IH]; simpl; [reflexivity|].
  now rewrite IH, app_assoc_s.
Qed.

Lemma readlines_nonempty (s : string) : Forall (fun l => l <> "") (readlines s).
Proof.
  induction s as [|c s IH]; simpl; [constructor|].
  destruct (Ascii.eqb c _).
  - constructor; [discriminate | exact IH].
  - destruct (readlines s) as [|l ls]; constructor; try discriminate.
    + constructor.
    + now inversion IH.
Qed.

Lemma cat_readlines (s : string) : cat (readlines s) = s.
Proof.
  induction s as [|c s IH]; simpl; [reflexivity|].
  destruct (Ascii.eqb_spec c (ascii_of_nat 10)) as [->|_].
  - simpl. now rewrite IH.
  - destruct (readlines s) as [|l ls]; simpl in *; now rewrite <- IH.
Qed.

Lemma readlines_nl_tail (a : string) : readlines (a +:+ nl) <> [].
Proof.
  induction a as [|c a IH]; cbn; [discriminate|].
  destruct (Ascii.eqb c _); [discriminate|].
  destruct (readlines (a +:+ nl)); discriminate.
Qed.

Lemma readlines_app_nl (a b : string) :
  readlines (a +:+ nl +:+ b) = readlines (a +:+ nl) ++ readlines b.
Proof.
  induction a as [|c a IH]; [reflexivity|].
  change (readlines (String c (a +:+ nl +:+ b)) =
          readlines (String c (a +:+ nl)) ++ readlines b).
  cbn [readlines]. rewrite IH.
  destruct (Ascii.eqb c _); [reflexivity|].
  pose proof (readlines_nl_tail a) as Hne.
  destruct (readlines (a +:+ nl)) as [|l ls]; [congruence | reflexivity].
Qed.

End PyFacts.

(* ================================================================== *)
(** * The splitter: what a boundary line does *)
(* ================================================================== *)

Module SplitterFacts.
Import Py PyFacts Splitter.

Lemma ghost_line_state (g : ghost_state) (line : string) :
  g_state (ghost_line g line) = scan_line (g_state g) line.
Proof.
  unfold ghost_line, scan_line.
  destruct (String.eqb (strip line) YAML_BOUNDARY), (in_yaml (g_state g)),
    (truthy (raw_yaml (g_state g))); reflexivity.
Qed.

Lemma ghost_scan_state (lines : list string) (g : ghost_state) :
  g_state (ghost_scan lines g) = scan lines (g_state g).
Proof.
  revert g; induction lines as [|l ls IH]; intros g; simpl; [reflexivity|].
  unfold ghost_scan, scan in *. simpl. now rewrite IH, ghost_line_state.
Qed.

Lemma ghost_inv_init : ghost_inv ghost_init.
Proof. split; simpl; auto. Qed.

Lemma ghost_inv_line (g : ghost_state) (line : string) :
  line <> "" -> ghost_inv g -> ghost_inv (ghost_line g line).
Proof.
  intros Hl [Hf Hb Hn]. unfold ghost_line.
  destruct (String.eqb (strip line) YAML_BOUNDARY),
    (in_yaml (g_state g)) eqn:Ein,
    (truthy (raw_yaml (g_state g))); simpl; split; simpl; auto;
    rewrite ?cat_app; simpl; rewrite ?app_nil_r_s; try congruence;
    apply Forall_app; split; auto.
Qed.

Lemma ghost_inv_scan (lines : list string) (g : ghost_state) :
  Forall (fun l => l <> "") lines -> ghost_inv g ->
  ghost_inv (ghost_scan lines g).
Proof.
  revert g; induction lines as [|l ls IH]; intros g Hls Hg; [exact Hg|].
  inversion Hls; subst. unfold ghost_scan; simpl.
  apply IH; [assumption|]. now apply ghost_inv_line.
Qed.

Lemma truthy_front (g : ghost_state) :
  ghost_inv g -> truthy (raw_yaml (g_state g)) = true <-> front_lines g <> [].
Proof.
  intros [Hf _ Hn]. unfold truthy. rewrite Hf.
  destruct (front_lines g) as [|l ls]; simpl.
  - split; [discriminate | congruence].
  - split; [discriminate | intros _].
    inversion Hn; subst.
    destruct l; [congruence | reflexivity].
Qed.

(** C5.  During the line scan of a document, a line whose trimmed content
    is [---] turns the in-front-matter flag off exactly when the flag is on
    and at least one line has already gone into the front-matter buffer;
    that closing line is dropped (neither buffer changes).  A [---] line
    met while nothing has been buffered is itself put into the
    front-matter buffer, and once the flag is off every line, [---] lines
    included, is appended verbatim to the body buffer. *)
Theorem boundary_closes_iff_buffered
    (content : string) (pre post : list string) (line : string) :
  readlines content = pre ++ line :: post ->
  line_effect pre line.
Proof.
  intros Hlines.
  pose proof (readlines_nonempty content) as Hne. rewrite Hlines in Hne.
  apply Forall_app in Hne as [Hpre Hrest].
  assert (Hline : line <> "") by now inversion Hrest.
  pose proof (ghost_inv_scan pre ghost_init Hpre ghost_inv_init) as Hinv.
  pose proof (truthy_front _ Hinv) as Htruthy.
  destruct Hinv as [Hf Hb Hn].
  unfold line_effect; cbv zeta.
  set (g := ghost_scan pre ghost_init) in *.
  assert (Hst : g_state g = scan pre scan_init)
    by (unfold g; now rewrite ghost_scan_state).
  split; [exact Hst|]. split; [exact Hf|]. split; [exact Hb|].
  assert (Hfl : (front_lines g <> [] /\
                 truthy (raw_yaml (g_state g)) = true) \/
                (front_lines g = [] /\ raw_yaml (g_state g) = ""))
    by (destruct (front_lines g) as [|l0 ls0] eqn:E;
        [right; rewrite Hf; auto
        |left; split; [discriminate | apply Htruthy; discriminate]]).
  clear Htruthy.
  unfold is_boundary, scan_line, ghost_line.
  destruct (String.eqb (strip line) YAML_BOUNDARY);
    destruct (in_yaml (g_state g)) eqn:Ein;
    destruct Hfl as [[Hfl Ht] | [Hfl Hraw]];
    rewrite ?Ht, ?Hraw, ?Hfl; simpl;
    intuition (try congruence; try discriminate).
Qed.

Lemma scan_body (lines : list string) (raw md : string) :
  scan lines {| raw_yaml := raw; markdown := md; in_yaml := false |} =
  {| raw_yaml := raw; markdown := md +:+ cat lines; in_yaml := false |}.
Proof.
  revert md; induction lines as [|l ls IH]; intros md; simpl.
  - now rewrite app_nil_r_s.
  - unfold scan in *; simpl. unfold scan_line at 2; simpl.
    destruct (String.eqb (strip l) YAML_BOUNDARY);
      now rewrite IH, app_assoc_s.
Qed.

Lemma scan_front (lines : list string) (raw md : string) :
  forallb (fun l => negb (is_boundary l)) lines = true ->
  scan lines {| raw_yaml := raw; markdown := md; in_yaml := true |} =
  {| raw_yaml := raw +:+ cat lines; markdown := md; in_yaml := true |}.
Proof.
  revert raw; induction lines as [|l ls IH]; intros raw Hnb; simpl.
  - now rewrite app_nil_r_s.
  - simpl in Hnb. apply andb_prop in Hnb as [Hl Hls].
    unfold scan in *; simpl. unfold scan_line at 2; simpl.
    unfold is_boundary in Hl. apply negb_true_iff in Hl. rewrite Hl.
    now rewrite IH, app_assoc_s.
Qed.

Lemma truthy_app (p r : string) : r <> "" -> truthy (p +:+ r) = true.
Proof.
  intros Hr. unfold truthy. apply negb_true_iff, String.eqb_neq.
  intros H. apply app_eq_nil_s in H as [_ H]. contradiction.
Qed.

Lemma truthy_ne (r : string) : r <> "" -> truthy r = true.
Proof. intros Hr. apply negb_true_iff, String.eqb_neq, Hr. Qed.

(** Once something has been buffered, a prefix put in front of the
    front-matter buffer does not change how the scan proceeds. *)
Lemma scan_prefix_irrelevant (p : string) (lines : list string) :
  forall st1 st2 : scan_state,
  in_yaml st2 = in_yaml st1 -> markdown st2 = markdown st1 ->
  raw_yaml st2 = p +:+ raw_yaml st1 ->
  (in_yaml st1 = true -> raw_yaml st1 <> "") ->
  in_yaml (scan lines st2) = in_yaml (scan lines st1) /\
  markdown (scan lines st2) = markdown (scan lines st1) /\
  raw_yaml (scan lines st2) = p +:+ raw_yaml (scan lines st1).
Proof.
  induction lines as [|l ls IH]; intros st1 st2 Hin Hmd Hraw Hne; simpl.
  - auto.
  - unfold scan in *; simpl. apply IH; clear IH; unfold scan_line;
      rewrite ?Hin, ?Hmd, ?Hraw;
      destruct (String.eqb (strip l) YAML_BOUNDARY);
      destruct (in_yaml st1) eqn:E; simpl;
      rewrite ?truthy_app, ?truthy_ne by auto; simpl;
      rewrite ?app_assoc_s; auto; try discriminate.
    all: intros _ H; apply app_eq_nil_s in H as [H _]; now apply Hne.
Qed.

Lemma readlines_one_leading (Y B : string) :
  readlines (doc_one_leading Y B) =
  ("---" +:+ nl) :: readlines (doc_closing_only Y B).
Proof. reflexivity. Qed.

Lemma readlines_two_leading (Y B : string) :
  readlines (doc_two_leading Y B) =
  ("---" +:+ nl) :: ("---" +:+ nl) :: readlines (doc_closing_only Y B).
Proof. reflexivity. Qed.

Lemma readlines_closing_only (Y B : string) :
  readlines (doc_closing_only Y B) =
  readlines (Y +:+ nl) ++ ("---" +:+ nl) :: readlines B.
Proof.
  unfold doc_closing_only. cbn [join].
  now rewrite readlines_app_nl.
Qed.

(** The scenario of the tests: a YAML block none of whose lines is a
    boundary, closed by one boundary line. *)
Lemma split_closing_only (Y B : string) :
  forallb (fun l => negb (is_boundary l)) (readlines (Y +:+ nl)) = true ->
  split_text (doc_closing_only Y B) = (Y +:+ nl, strip B).
Proof.
  intros Hnb. unfold split_text.
  rewrite readlines_closing_only. unfold scan. rewrite fold_left_app.
  fold (scan (readlines (Y +:+ nl)) scan_init).
  unfold scan_init. rewrite scan_front by exact Hnb.
  rewrite cat_readlines. cbn [fold_left].
  assert (Hs : scan_line
            {| raw_yaml := "" +:+ Y +:+ nl; markdown := ""; in_yaml := true |}
            ("---" +:+ nl) =
            {| raw_yaml := Y +:+ nl; markdown := ""; in_yaml := false |}).
  { unfold scan_line. cbn [in_yaml raw_yaml markdown].
    replace (String.eqb (strip ("---" +:+ nl)) YAML_BOUNDARY) with true
      by reflexivity.
    change ("" +:+ Y +:+ nl) with (Y +:+ nl).
    rewrite truthy_app by discriminate. reflexivity. }
  rewrite Hs. fold (scan (readlines B)
    {| raw_yaml := Y +:+ nl; markdown := ""; in_yaml := false |}).
  rewrite scan_body, cat_readlines. reflexivity.
Qed.

(** With two leading boundary lines the first is buffered and the second
    closes the front matter: the whole rest of the document is body. *)
Lemma split_two_leading (Y B : string) :
  split_text (doc_two_leading Y B) =
  ("---" +:+ nl, strip (doc_closing_only Y B)).
Proof.
  unfold split_text. rewrite readlines_two_leading.
  unfold scan. cbn [fold_left].
  change (scan_line (scan_line scan_init ("---" +:+ nl)) ("---" +:+ nl))
    with {| raw_yaml := "---" +:+ nl; markdown := ""; in_yaml := false |}.
  fold (scan (readlines (doc_closing_only Y B))
    {| raw_yaml := "---" +:+ nl; markdown := ""; in_yaml := false |}).
  rewrite scan_body, cat_readlines. reflexivity.
Qed.

Lemma parse_split {Doc : Type} (yaml_load : string -> option Doc)
    (fs : gmap string string) (path content : string) :
  fs !! path = Some content ->
  parse yaml_load fs path =
  match yaml_load (fst (split_text content)) with
  | None => inl YAMLError
  | Some front_matter => inr (front_matter, snd (split_text content))
  end.
Proof. intros H. unfold parse, split_text. now rewrite H. Qed.

(** C4 (amended).  For every YAML block [Y] whose first line is not itself
    a boundary line and every body [B], the document with one leading
    boundary line and the document with none (the closing boundary being
    present in both) split to the same trimmed body, and to front-matter
    texts that differ only by the leading [---] line; [parse] therefore
    returns the same pair for both whenever the YAML decoder ignores that
    leading line.  With two leading boundary lines the second one closes
    the front matter, and [Y], the closing boundary and [B] are all body. *)
Theorem leading_boundary_is_optional {Doc : Type}
    (yaml_load : string -> option Doc) (fs : gmap string string)
    (p0 p1 : string) (Y B : string) :
  is_boundary (first_line Y) = false ->
  fs !! p0 = Some (doc_closing_only Y B) ->
  fs !! p1 = Some (doc_one_leading Y B) ->
  yaml_load ("---" +:+ nl +:+ fst (split_text (doc_closing_only Y B))) =
    yaml_load (fst (split_text (doc_closing_only Y B))) ->
  fst (split_text (doc_one_leading Y B)) =
    "---" +:+ nl +:+ fst (split_text (doc_closing_only Y B))
  /\ snd (split_text (doc_one_leading Y B)) =
     snd (split_text (doc_closing_only Y B))
  /\ parse yaml_load fs p1 = parse yaml_load fs p0
  /\ split_text (doc_two_leading Y B) =
     ("---" +:+ nl, strip (doc_closing_only Y B)).
Proof.
  intros Hfirst H0 H1 Hyaml.
  assert (Hsplit :
    fst (split_text (doc_one_leading Y B)) =
      "---" +:+ nl +:+ fst (split_text (doc_closing_only Y B))
    /\ snd (split_text (doc_one_leading Y B)) =
       snd (split_text (doc_closing_only Y B))).
  { unfold split_text; cbn [fst snd].
    rewrite readlines_one_leading, readlines_closing_only.
    unfold first_line in Hfirst.
    pose proof (readlines_nonempty (Y +:+ nl)) as Hne.
    pose proof (readlines_nl_tail Y) as Hnil.
    destruct (readlines (Y +:+ nl)) as [|l1 ls]; [congruence|].
    cbn [hd] in Hfirst. inversion Hne as [|? ? Hl1 _]; subst.
    unfold scan. cbn [fold_left app].
    assert (E1 : scan_line scan_init l1 =
                 {| raw_yaml := l1; markdown := ""; in_yaml := true |}).
    { unfold scan_line, scan_init; cbn [in_yaml raw_yaml markdown].
      unfold is_boundary in Hfirst. now rewrite Hfirst. }
    assert (E2 : scan_line (scan_line scan_init ("---" +:+ nl)) l1 =
                 {| raw_yaml := "---" +:+ nl +:+ l1; markdown := "";
                    in_yaml := true |}).
    { change (scan_line scan_init ("---" +:+ nl))
        with {| raw_yaml := "---" +:+ nl; markdown := ""; in_yaml := true |}.
      unfold scan_line; cbn [in_yaml raw_yaml markdown].
      unfold is_boundary in Hfirst. now rewrite Hfirst. }
    rewrite E1, E2.
    destruct (scan_prefix_irrelevant ("---" +:+ nl)
                (ls ++ ("---" +:+ nl) :: readlines B)
                {| raw_yaml := l1; markdown := ""; in_yaml := true |}
                {| raw_yaml := "---" +:+ nl +:+ l1; markdown := "";
                   in_yaml := true |})
      as (_ & Hmd & Hraw); try reflexivity.
    { intros _. exact Hl1. }
    unfold scan in Hmd, Hraw. rewrite Hmd, Hraw. split; reflexivity. }
  destruct Hsplit as [Hraw Hbody].
  repeat split; try assumption.
  - rewrite (parse_split _ _ _ _ H1), (parse_split _ _ _ _ H0).
    now rewrite Hraw, Hbody, Hyaml.
  - apply split_two_leading.
Qed.

Lemma leading_boundary_is_optional_witness :
  fst (split_text (doc_one_leading flat_yaml flat_markdown)) =
    "---" +:+ nl +:+ fst (split_text (doc_closing_only flat_yaml flat_markdown))
  /\ snd (split_text (doc_one_leading flat_yaml flat_markdown)) =
     snd (split_text (doc_closing_only flat_yaml flat_markdown))
  /\ parse flat_yaml_load posts "one.md" = parse flat_yaml_load posts "zero.md"
  /\ split_text (doc_two_leading flat_yaml flat_markdown) =
     ("---" +:+ nl, strip (doc_closing_only flat_yaml flat_markdown)).
Proof.
  apply (leading_boundary_is_optional flat_yaml_load posts
           "zero.md" "one.md" flat_yaml flat_markdown);
    vm_compute; reflexivity.
Defined.

(** C4 as stated fails: with two leading boundary lines the YAML block is
    returned as part of the body, and the front matter decodes to the empty
    mapping instead of the block's mapping. *)
Lemma two_leading_boundaries_differ :
  snd (split_text (doc_two_leading flat_yaml flat_markdown)) <>
  snd (split_text (doc_closing_only flat_yaml flat_markdown))
  /\ fst (split_text (doc_two_leading flat_yaml flat_markdown)) = "---" +:+ nl
  /\ fst (split_text (doc_closing_only flat_yaml flat_markdown)) = flat_yaml +:+ nl
  /\ parse flat_yaml_load posts "two.md" <> parse flat_yaml_load posts "zero.md".
Proof.
  split; [vm_compute; discriminate|].
  split; [reflexivity|]. split; [reflexivity|].
  vm_compute; discriminate.
Qed.

Lemma boundary_closes_iff_buffered_witness :
  line_effect ["---" +:+ nl; "title: Test" +:+ nl] ("---" +:+ nl).
Proof.
  apply (boundary_closes_iff_buffered
           (doc_one_leading "title: Test" flat_markdown)
           ["---" +:+ nl; "title: Test" +:+ nl]
           (readlines flat_markdown) ("---" +:+ nl)).
  reflexivity.
Defined.

(** The two tests of the repository: one boundary, two boundaries. *)
Example test_one_yaml_boundary :
  split_text (doc_closing_only have_yaml have_markdown) =
  (have_yaml +:+ nl, strip have_markdown).
Proof. vm_compute. reflexivity. Qed.

Example test_two_yaml_boundaries :
  split_text (doc_one_leading have_yaml have_markdown) =
  ("---" +:+ nl +:+ have_yaml +:+ nl, strip have_markdown).
Proof. vm_compute. reflexivity. Qed.

End SplitterFacts.

(* ================================================================== *)
(** * The renderer: what each method returns and leaves behind *)
(* ================================================================== *)

Module RendererFacts.
Import Py PyFacts Renderer.

(** ** The templates, filled in *)

Lemma format_url_tag (src : string) :
  format (quoted "<ri:url ri:value='{}' />") [src] [] =
  Some ("<ri:url ri:value=" +:+ dq +:+ src +:+ dq +:+ " />").
Proof. reflexivity. Qed.

Lemma format_attachment_tag (name : string) :
  format (quoted "<ri:attachment ri:filename='{}' />") [name] [] =
  Some ("<ri:attachment ri:filename=" +:+ dq +:+ name +:+ dq +:+ " />").
Proof. reflexivity. Qed.

Lemma format_image_tag (tag : string) :
  format "<ac:image>{image_tag}</ac:image>" [] [("image_tag", tag)] =
  Some ("<ac:image>" +:+ tag +:+ "</ac:image>").
Proof. reflexivity. Qed.

Lemma format_author (user_key : string) :
  format author_template [] [("user_key", user_key)] =
  Some (author_macro user_key).
Proof. vm_compute. reflexivity. Qed.

Lemma format_authors_total (user_keys : list string) :
  format_authors user_keys = Some (map author_macro user_keys).
Proof.
  induction user_keys as [|k ks IH]; [reflexivity|].
  cbn [format_authors map]. now rewrite format_author, IH.
Qed.

Lemma format_authors_paragraph (content : string) :
  format "<h1>Authors</h1><p>{}</p>" [content] [] =
  Some ("<h1>Authors</h1><p>" +:+ content +:+ "</p>").
Proof. reflexivity. Qed.

Lemma format_column (width body : string) :
  format column_template [] [("width", width); ("content", body)] =
  Some (column_macro width body).
Proof. vm_compute. reflexivity. Qed.

Lemma toc_template_eq : toc_template = toc_macro.
Proof. vm_compute. reflexivity. Qed.

Lemma format_code (code lang : string) :
  format code_template [] [("c", code); ("l", lang)] =
  Some (quoted "<ac:structured-macro ac:name='code' ac:schema-version='1'>"
        +:+ nl +:+ quoted "    <ac:parameter ac:name='language'>" +:+ lang
        +:+ "</ac:parameter>"
        +:+ nl +:+ "    <ac:plain-text-body><![CDATA[" +:+ code
        +:+ "]]></ac:plain-text-body>"
        +:+ nl +:+ "</ac:structured-macro>" +:+ nl).
Proof. vm_compute. reflexivity. Qed.

Lemma percent_mermaid (data : string) :
  percent "https://mermaid.ink/img/%s" data =
  Some ("https://mermaid.ink/img/" +:+ data).
Proof.
  unfold percent. cbn. rewrite app_nil_r_s. reflexivity.
Qed.

(** ** One call of each method *)

Section Calls.
Context {R : HTMLRenderer} {U : UrlParse}.

Lemma image_run (src : string) (title alt_text : option string)
    (self : ConfluenceRenderer) :
  image src title alt_text self =
  match netloc src with
  | None => None
  | Some parsed_netloc =>
      Some (if truthy parsed_netloc then (url_image src, self)
            else (attachment_image (basename src),
                  add_attachments self [src]))
  end.
Proof.
  unfold image, bind, lift. destruct (netloc src) as [parsed_netloc|];
    [|reflexivity].
  rewrite format_url_tag.
  destruct (truthy parsed_netloc); cbn [negb].
  - unfold ret. rewrite format_image_tag. unfold url_image.
    simpl. rewrite !app_assoc_s. reflexivity.
  - rewrite format_attachment_tag. unfold append_attachment, ret.
    rewrite format_image_tag. unfold attachment_image, add_attachments.
    simpl. rewrite !app_assoc_s. reflexivity.
Qed.

Lemma heading_run (text : string) (level : Z) (self : ConfluenceRenderer) :
  heading text level self =
  Some (if match top_heading self with None => true | Some _ => false end
           && (level =? 1)
        then ("", {| attachments := attachments self;
                     authors := authors self; has_toc := true;
                     top_heading := Some text |})
        else (super_heading text level,
              {| attachments := attachments self; authors := authors self;
                 has_toc := true; top_heading := top_heading self |})).
Proof.
  unfold heading, bind, set_has_toc, get_self, set_top_heading, ret.
  cbn [top_heading attachments authors has_toc].
  destruct (top_heading self), (level =? 1); reflexivity.
Qed.

Lemma link_run (href : string) (title content : option string)
    (self : ConfluenceRenderer) :
  link href title content self =
  match netloc href with
  | None => None
  | Some parsed_netloc =>
      if truthy parsed_netloc
      then Some (super_link href title content, self)
      else match content with
           | Some text => Some (super_text text, self)
           | None => None
           end
  end.
Proof.
  unfold link, bind, lift. destruct (netloc href) as [parsed_netloc|];
    [|reflexivity].
  destruct (truthy parsed_netloc); [reflexivity|].
  now destruct content.
Qed.

Lemma block_quote_run (content : string) (self : ConfluenceRenderer) :
  block_quote content self =
  Some (super_block_quote
          (if Nat.eqb (count content "</p>") 1
           then replace (replace content "<p>" "") "</p>" ""
           else content), self).
Proof. reflexivity. Qed.

Lemma block_mermaid_run (code : string) (self : ConfluenceRenderer) :
  block_mermaid code self =
  Some (url_image ("https://mermaid.ink/img/"
                   +:+ b64encode (encode (dumps (mermaid_payload code)))),
        self).
Proof.
  unfold block_mermaid, bind, lift, decode_ascii.
  rewrite percent_mermaid, format_url_tag, format_image_tag.
  unfold url_image. simpl. rewrite !app_assoc_s. reflexivity.
Qed.

Lemma block_code_run (code : string) (lang : option string)
    (self : ConfluenceRenderer) :
  exists html : string, block_code code lang self = Some (html, self).
Proof.
  unfold block_code.
  destruct (match lang with Some l => String.eqb l "mermaid" | None => false end).
  - rewrite block_mermaid_run. eauto.
  - unfold lift. rewrite format_code. eauto.
Qed.

Lemma render_authors_run (self : ConfluenceRenderer) :
  render_authors self = Some (authors_fragment (authors self), self).
Proof.
  unfold render_authors, bind, get_self, lift.
  now rewrite format_authors_total, format_authors_paragraph.
Qed.

Lemma layout_run (content : string) (self : ConfluenceRenderer) :
  layout content self =
  Some (column_macro "30%"
          ((if has_toc self then toc_macro else "")
           +:+ authors_fragment (authors self))
        +:+ column_macro "800px" content, self).
Proof.
  unfold layout, bind, get_self, lift, ret.
  rewrite render_authors_run, !format_column, toc_template_eq.
  destruct (has_toc self); reflexivity.
Qed.

End Calls.

(** ** Updates of [self] compose *)

Lemma first_h1_app (c1 c2 : list (string * Z)) :
  first_h1 (c1 ++ c2) =
  match first_h1 c1 with Some t => Some t | None => first_h1 c2 end.
Proof.
  induction c1 as [|[t l] c1 IH]; [reflexivity|].
  cbn [app first_h1]. destruct (l =? 1); [reflexivity | exact IH].
Qed.

Lemma add_attachments_nil (self : ConfluenceRenderer) :
  add_attachments self [] = self.
Proof. destruct self. unfold add_attachments. cbn. now rewrite app_nil_r. Qed.

Lemma add_attachments_app (self : ConfluenceRenderer) (a b : list string) :
  add_attachments (add_attachments self a) b = add_attachments self (a ++ b).
Proof. unfold add_attachments. cbn. now rewrite app_assoc. Qed.

Lemma after_render_nil (self : ConfluenceRenderer) :
  after_render self [] [] = self.
Proof.
  destruct self as [a u t h]. unfold after_render, after_headings,
    add_attachments. cbn. rewrite app_nil_r. now destruct h.
Qed.

Lemma after_render_images (self : ConfluenceRenderer) (srcs : list string) :
  after_render self [] srcs = add_attachments self srcs.
Proof.
  unfold after_render. f_equal.
  destruct self as [a u t h]. unfold after_headings. cbn. now destruct h.
Qed.

Lemma after_render_app (self : ConfluenceRenderer)
    (c1 c2 : list (string * Z)) (s1 s2 : list string) :
  after_render (after_render self c1 s1) c2 s2 =
  after_render self (c1 ++ c2) (s1 ++ s2).
Proof.
  destruct self as [a u t h].
  unfold after_render, after_headings, add_attachments. cbn.
  rewrite first_h1_app, app_assoc. f_equal.
  - destruct c1, c2; reflexivity.
  - destruct h; [reflexivity|]. now destruct (first_h1 c1).
Qed.

(** ** The tree walk *)

Section Walk.
Context {R : HTMLRenderer} {U : UrlParse}.

Lemma render_inline_Link (l : string) (c : list inline) (t : option string) :
  render_inline (Link l c t) =
  bind (render_inlines c) (fun inner => link l (Some inner) t).
Proof. reflexivity. Qed.

Lemma render_inline_Span (m : string) (c : list inline) :
  render_inline (Span m c) =
  bind (render_inlines c) (fun inner => ret (super_method m inner)).
Proof. reflexivity. Qed.

Lemma render_block_BlockQuote (c : list block) :
  render_block (BlockQuote c) =
  bind (render c) (fun inner => block_quote inner).
Proof. reflexivity. Qed.

Lemma render_block_Container (m : string) (c : list block) :
  render_block (Container m c) =
  bind (render c) (fun inner => ret (super_method m inner)).
Proof. reflexivity. Qed.

Lemma inline_accepts_Link (l : string) (c : list inline) (t : option string) :
  inline_accepts (Link l c t) = inlines_accept c && link_accepts l t.
Proof. reflexivity. Qed.

Lemma inline_accepts_Span (m : string) (c : list inline) :
  inline_accepts (Span m c) = inlines_accept c.
Proof. reflexivity. Qed.

Lemma block_accepts_BlockQuote (c : list block) :
  block_accepts (BlockQuote c) = blocks_accept c.
Proof. reflexivity. Qed.

Lemma block_accepts_Container (m : string) (c : list block) :
  block_accepts (Container m c) = blocks_accept c.
Proof. reflexivity. Qed.

Lemma inline_nested_ind (P : inline -> Prop) :
  (forall t, P (Text t)) ->
  (forall s a t, P (Image s a t)) ->
  (forall l c t, Forall P c -> P (Link l c t)) ->
  (forall m c, Forall P c -> P (Span m c)) ->
  forall n, P n.
Proof.
  intros HT HI HL HS. fix IH 1. intros [t|s a t|l c t|m c].
  - apply HT.
  - apply HI.
  - apply HL. revert c. fix IHc 1. intros [|x c]; constructor;
      [apply IH | apply IHc].
  - apply HS. revert c. fix IHc 1. intros [|x c]; constructor;
      [apply IH | apply IHc].
Qed.

Lemma block_nested_ind (P : block -> Prop) :
  (forall c l, P (Heading c l)) ->
  (forall c l, P (BlockCode c l)) ->
  (forall c, Forall P c -> P (BlockQuote c)) ->
  (forall m c, P (Leaf m c)) ->
  (forall m c, Forall P c -> P (Container m c)) ->
  forall n, P n.
Proof.
  intros HH HC HQ HL HK. fix IH 1. intros [c l|c l|c|m c|m c].
  - apply HH.
  - apply HC.
  - apply HQ. revert c. fix IHc 1. intros [|x c]; constructor;
      [apply IH | apply IHc].
  - apply HL.
  - apply HK. revert c. fix IHc 1. intros [|x c]; constructor;
      [apply IH | apply IHc].
Qed.

Lemma inlines_ok_of_all (ns : list inline) : Forall inline_ok ns -> inlines_ok ns.
Proof.
  induction 1 as [|n ns [a Ha] _ [b Hb]].
  - exists "". intros self. cbn. unfold ret. now rewrite add_attachments_nil.
  - exists (a +:+ b). intros self.
    cbn [render_inlines inlines_images inlines_accept].
    unfold bind. rewrite Ha. destruct (inline_accepts n); [|reflexivity].
    rewrite Hb. cbn [andb]. destruct (inlines_accept ns); [|reflexivity].
    unfold ret. now rewrite add_attachments_app, List.filter_app.
Qed.

Lemma render_inline_ok (n : inline) : inline_ok n.
Proof.
  induction n as [t|s a t|l c t IH|m c IH] using inline_nested_ind.
  - exists (super_text t). intros self. cbn. unfold ret.
    now rewrite add_attachments_nil.
  - exists (match netloc s with
            | Some parsed_netloc =>
                if truthy parsed_netloc then url_image s
                else attachment_image (basename s)
            | None => ""
            end).
    intros self.
    cbn [render_inline inline_images inline_accepts List.filter].
    rewrite image_run. unfold is_internal.
    destruct (netloc s) as [parsed_netloc|]; [|reflexivity].
    destruct (truthy parsed_netloc); cbn [negb];
      now rewrite ?add_attachments_nil.
  - apply inlines_ok_of_all in IH as [inner Hinner].
    exists (match netloc l with
            | Some parsed_netloc =>
                if truthy parsed_netloc then super_link l (Some inner) t
                else match t with Some text => super_text text | None => "" end
            | None => ""
            end).
    intros self. rewrite render_inline_Link, inline_accepts_Link.
    unfold bind. rewrite Hinner.
    destruct (inlines_accept c); [|reflexivity]. cbn [andb].
    rewrite link_run. unfold link_accepts.
    destruct (netloc l) as [parsed_netloc|]; [|reflexivity].
    destruct (truthy parsed_netloc); [reflexivity|].
    destruct t; reflexivity.
  - apply inlines_ok_of_all in IH as [inner Hinner].
    exists (super_method m inner).
    intros self. rewrite render_inline_Span, inline_accepts_Span.
    unfold bind. rewrite Hinner.
    destruct (inlines_accept c); reflexivity.
Qed.

Lemma render_inlines_run (content : list inline) (self : ConfluenceRenderer) :
  render_inlines content self =
  if inlines_accept content
  then Some (rendered content,
             add_attachments self
               (List.filter is_internal (inlines_images content)))
  else None.
Proof.
  destruct (inlines_ok_of_all content) as [out Hout].
  { apply Forall_forall. intros n _. apply render_inline_ok. }
  unfold rendered. rewrite !Hout.
  now destruct (inlines_accept content).
Qed.

Lemma blocks_ok_of_all (ns : list block) : Forall block_ok ns -> blocks_ok ns.
Proof.
  induction 1 as [|n ns Hn _ IH]; intros self.
  - exists "". cbn. unfold ret. now rewrite after_render_nil.
  - destruct (Hn self) as [a Ha].
    destruct (IH (after_render self (block_headings n)
                    (List.filter is_internal (block_images n)))) as [b Hb].
    exists (a +:+ b). cbn [render blocks_headings blocks_images blocks_accept].
    unfold bind. rewrite Ha. destruct (block_accepts n); [|reflexivity].
    rewrite Hb. cbn [andb]. destruct (blocks_accept ns); [|reflexivity].
    unfold ret. now rewrite after_render_app, List.filter_app.
Qed.

Lemma heading_after (text : string) (level : Z) (self : ConfluenceRenderer)
    (srcs : list string) :
  exists out : string,
    heading text level (add_attachments self srcs) =
    Some (out, after_render self [(text, level)] srcs).
Proof.
  rewrite heading_run. destruct self as [a u t h].
  unfold after_render, after_headings, add_attachments. cbn.
  destruct h, (level =? 1); cbn; eauto.
Qed.

Lemma render_block_ok (n : block) : block_ok n.
Proof.
  induction n as [c l|c l|c IH|m c|m c IH] using block_nested_ind;
    intros self.
  - cbn [render_block block_headings block_images block_accepts].
    unfold bind. rewrite render_inlines_run.
    destruct (inlines_accept c); [apply heading_after | now exists ""].
  - destruct (block_code_run c l self) as [html Hc]. exists html.
    cbn [render_block block_headings block_images block_accepts List.filter].
    now rewrite Hc, after_render_nil.
  - apply blocks_ok_of_all in IH. destruct (IH self) as [inner Hinner].
    rewrite render_block_BlockQuote, block_accepts_BlockQuote.
    unfold bind. rewrite Hinner.
    destruct (blocks_accept c); [|now exists ""].
    rewrite block_quote_run. eauto.
  - exists (super_method m (rendered c)).
    cbn [render_block block_headings block_images block_accepts].
    unfold bind. rewrite render_inlines_run.
    destruct (inlines_accept c); [|reflexivity].
    unfold ret. now rewrite after_render_images.
  - apply blocks_ok_of_all in IH. destruct (IH self) as [inner Hinner].
    rewrite render_block_Container, block_accepts_Container.
    unfold bind. rewrite Hinner.
    destruct (blocks_accept c); [|now exists ""].
    unfold ret. eauto.
Qed.

Lemma render_run (ns : list block) (self : ConfluenceRenderer) :
  exists out : string,
    render ns self =
    if blocks_accept ns
    then Some (out, after_render self (blocks_headings ns)
                      (List.filter is_internal (blocks_images ns)))
    else None.
Proof.
  apply blocks_ok_of_all, Forall_forall. intros n _. apply render_block_ok.
Qed.

(** A pass that returns was accepted, and leaves [self] as computed. *)
Lemma render_returns (ns : list block) (self self' : ConfluenceRenderer)
    (html : string) :
  render ns self = Some (html, self') ->
  blocks_accept ns = true /\
  self' = after_render self (blocks_headings ns)
            (List.filter is_internal (blocks_images ns)).
Proof.
  destruct (render_run ns self) as [out Hr]. rewrite Hr.
  destruct (blocks_accept ns); [|discriminate].
  intros H. injection H as _ <-. auto.
Qed.

End Walk.

(** ** Successive heading calls *)

Section Headings.
Context {R : HTMLRenderer}.

Lemma after_headings_cons (self : ConfluenceRenderer) (text : string)
    (level : Z) (rest : list (string * Z)) :
  after_headings
    (if captured self || negb (level =? 1)
     then {| attachments := attachments self; authors := authors self;
             has_toc := true; top_heading := top_heading self |}
     else {| attachments := attachments self; authors := authors self;
             has_toc := true; top_heading := Some text |}) rest =
  after_headings self ((text, level) :: rest).
Proof.
  destruct self as [a u t h]. unfold after_headings, captured. cbn.
  destruct h, (level =? 1), rest; reflexivity.
Qed.

Lemma headings_run (calls : list (string * Z)) (self : ConfluenceRenderer) :
  headings calls self =
  Some (expected_headings (captured self) calls, after_headings self calls).
Proof.
  revert self; induction calls as [|[text level] rest IH]; intros self.
  - cbn. unfold ret, after_headings. destruct self as [a u t h].
    now destruct h.
  - cbn [headings expected_headings]. unfold bind. rewrite heading_run.
    rewrite <- after_headings_cons. unfold captured.
    destruct (top_heading self) as [t|] eqn:E, (level =? 1); cbn;
      rewrite IH; unfold ret, captured; cbn; rewrite ?E; reflexivity.
Qed.

Lemma top_heading_changes_captured (calls : list (string * Z))
    (self : ConfluenceRenderer) :
  captured self = true -> top_heading_changes calls self = O.
Proof.
  revert self; induction calls as [|[text level] rest IH]; intros self Hc;
    [reflexivity|].
  cbn [top_heading_changes]. rewrite heading_run.
  unfold captured in Hc. destruct (top_heading self) as [t|] eqn:E;
    [|discriminate].
  cbn [andb top_heading]. rewrite bool_decide_eq_true_2 by reflexivity.
  rewrite IH; reflexivity.
Qed.

Lemma top_heading_changes_run (calls : list (string * Z))
    (self : ConfluenceRenderer) :
  top_heading_changes calls self =
  if negb (captured self) && bool_decide (first_h1 calls <> None)
  then 1%nat else O.
Proof.
  destruct (captured self) eqn:Hc;
    [now rewrite top_heading_changes_captured|].
  cbn [negb andb].
  revert self Hc; induction calls as [|[text level] rest IH]; intros self Hc.
  - reflexivity.
  - cbn [top_heading_changes first_h1]. rewrite heading_run.
    unfold captured in Hc. destruct (top_heading self) as [t|] eqn:E;
      [discriminate|].
    cbn [andb]. destruct (level =? 1); cbn [top_heading].
    + rewrite bool_decide_eq_false_2 by discriminate.
      rewrite top_heading_changes_captured by reflexivity.
      rewrite bool_decide_eq_true_2 by discriminate. reflexivity.
    + rewrite bool_decide_eq_true_2 by reflexivity.
      rewrite IH; reflexivity.
Qed.

End Headings.

(** ** The final path segment *)

Lemma rfind_absent (c : ascii) (s : string) :
  all_chars (fun x => negb (Ascii.eqb x c)) s = true -> rfind_char c s = -1.
Proof.
  induction s as [|x s IH]; [reflexivity|]. cbn [all_chars rfind_char].
  intros Hs. apply andb_prop in Hs as [Hx Hs]. rewrite (IH Hs).
  apply negb_true_iff in Hx. now rewrite Hx.
Qed.

Lemma rfind_last (c : ascii) (dir name : string) :
  all_chars (fun x => negb (Ascii.eqb x c)) name = true ->
  rfind_char c (dir +:+ String c name) = Z.of_nat (String.length dir).
Proof.
  intros Hn. induction dir as [|x dir IH].
  - cbn [String.append rfind_char String.length].
    rewrite (rfind_absent _ _ Hn), Ascii.eqb_refl. reflexivity.
  - cbn [String.append rfind_char String.length]. rewrite IH.
    destruct (0 <=? Z.of_nat (String.length dir)) eqn:E; [lia|].
    apply Z.leb_gt in E. lia.
Qed.

Lemma drop_app (dir rest : string) :
  drop (String.length dir) (dir +:+ rest) = rest.
Proof. induction dir as [|x dir IH]; [now destruct rest | exact IH]. Qed.

Lemma basename_final_segment (dir name : string) :
  all_chars (fun x => negb (Ascii.eqb x "/"%char)) name = true ->
  basename (dir +:+ "/" +:+ name) = name.
Proof.
  intros Hn. unfold basename.
  change (dir +:+ "/" +:+ name) with (dir +:+ String "/"%char name).
  rewrite (rfind_last _ _ _ Hn).
  replace (Z.to_nat (Z.of_nat (String.length dir) + 1))
    with (String.length (dir +:+ "/")).
  - change (dir +:+ String "/"%char name) with (dir +:+ "/" +:+ name).
    rewrite <- app_assoc_s. apply drop_app.
  - induction dir as [|x dir IH]; [reflexivity|].
    cbn [String.append String.length]. rewrite IH. lia.
Qed.

(** ** Paragraph tags and escaping *)

Lemma startswith_other (a x : ascii) (p s : string) :
  not_char a x = true -> startswith (String a p) (String x s) = false.
Proof.
  unfold not_char. intros Hx. apply negb_true_iff in Hx.
  cbn [startswith]. now rewrite Ascii.eqb_sym, Hx.
Qed.

Lemma count_single_paragraph (X : string) :
  all_chars (not_char "<"%char) X = true ->
  count ("<p>" +:+ X +:+ "</p>") "</p>" = 1%nat.
Proof.
  intros HX. unfold count.
  change (count_from "</p>" (X +:+ "</p>") 0 = 1%nat).
  induction X as [|c X IH]; [reflexivity|].
  cbn [all_chars] in HX. apply andb_prop in HX as [Hc HX].
  cbn [String.append count_from]. rewrite (startswith_other _ _ _ _ Hc).
  now apply IH.
Qed.

Lemma replace_single_paragraph (X : string) :
  all_chars (not_char "<"%char) X = true ->
  replace (replace ("<p>" +:+ X +:+ "</p>") "<p>" "") "</p>" "" = X.
Proof.
  intros HX. unfold replace.
  change (replace_from "<p>" "" ("<p>" +:+ X +:+ "</p>") 0)
    with (replace_from "<p>" "" (X +:+ "</p>") 0).
  assert (E1 : replace_from "<p>" "" (X +:+ "</p>") 0 = X +:+ "</p>").
  { induction X as [|c X IH]; [reflexivity|].
    cbn [all_chars] in HX. apply andb_prop in HX as [Hc HX].
    cbn [String.append replace_from].
    rewrite (startswith_other _ _ _ _ Hc). f_equal. now apply IH. }
  rewrite E1. clear E1.
  induction X as [|c X IH]; [reflexivity|].
  cbn [all_chars] in HX. apply andb_prop in HX as [Hc HX].
  cbn [String.append replace_from].
  rewrite (startswith_other _ _ _ _ Hc). f_equal. now apply IH.
Qed.

Lemma all_chars_app (p : ascii -> bool) (a b : string) :
  all_chars p (a +:+ b) = all_chars p a && all_chars p b.
Proof.
  induction a as [|x a IH]; [reflexivity|].
  cbn [String.append all_chars]. now rewrite IH, andb_assoc.
Qed.





Lemma mermaid_url_external (host_ok : string -> bool) (data : string) :
  urlsplit_netloc host_ok ("https://mermaid.ink/img/" +:+ data) =
  Some "mermaid.ink".
Proof. vm_compute. reflexivity. Qed.

End RendererFacts.

(* ================================================================== *)
(** * The renderer: the specification's statements *)
(* ================================================================== *)

Module RendererSpec.
Import Py PyFacts Renderer RendererFacts.

(** C1 (amended).  For every source that [urlparse] accepts, [image] on
    a source whose network location is not empty returns the [ac:image]
    fragment with a [ri:url] resource holding the source verbatim, and
    leaves [self] as it is; on a source whose network location is empty it
    returns the fragment with a [ri:attachment] resource named by the
    basename of the source, which is its final path segment, and appends
    the full source to the end of the attachments.  On a source that
    [urlparse] rejects the call raises and records nothing.  After a pass
    that returns, the attachments are the internal image sources of the
    document in order of appearance, duplicates kept.  On a fresh renderer
    the source [/images/example.png] gives the fragment naming
    [example.png] and the attachments [["/images/example.png"]]. *)
Theorem image_external_or_attachment :
  (forall (U : UrlParse) (src : string) (title alt_text : option string)
          (self : ConfluenceRenderer),
     image src title alt_text self =
     match netloc src with
     | Some parsed_netloc =>
         Some (if truthy parsed_netloc then (url_image src, self)
               else (attachment_image (basename src),
                     add_attachments self [src]))
     | None => None
     end)
  /\ (forall dir name : string,
        all_chars (not_char "/"%char) name = true ->
        basename (dir +:+ "/" +:+ name) = name)
  /\ (forall (R : HTMLRenderer) (U : UrlParse) (doc : list block)
             (self : ConfluenceRenderer) (html : string)
             (self' : ConfluenceRenderer),
        render doc self = Some (html, self') ->
        attachments self' =
        attachments self ++ List.filter is_internal (blocks_images doc))
  /\ (forall host_ok : string -> bool,
        image (U := cpython_urlparse host_ok) "/images/example.png"
          (Some "") (Some "") (new_renderer (VList [])) =
        Some (attachment_image "example.png",
              {| attachments := ["/images/example.png"]; authors := [];
                 has_toc := false; top_heading := None |})).
Proof.
  split; [intros; rewrite image_run; now destruct (netloc src)|].
  split; [exact basename_final_segment|].
  split; [|reflexivity].
  intros R U doc self html self' Hr.
  apply render_returns in Hr as [_ ->]. reflexivity.
Qed.

Lemma image_external_or_attachment_witness :
  basename ("/images" +:+ "/" +:+ "example.png") = "example.png"
  /\ attachments
       {| attachments := ["/a.png"; "/a.png"]; authors := [];
          has_toc := false; top_heading := None |} =
     attachments (new_renderer VNone) ++
     List.filter (is_internal (U := cpython_urlparse no_bracketed_host))
       (blocks_images
          [Leaf "paragraph"
             [Image "/a.png" "" None; Image "//example.com/b.png" "" None;
              Image "/a.png" "" None]]).
Proof.
  split.
  - apply (proj1 (proj2 image_external_or_attachment)
             "/images" "example.png").
    reflexivity.
  - apply (proj1 (proj2 (proj2 image_external_or_attachment))
             html_defaults (cpython_urlparse no_bracketed_host)
             [Leaf "paragraph"
                [Image "/a.png" "" None; Image "//example.com/b.png" "" None;
                 Image "/a.png" "" None]]
             (new_renderer VNone)
             ("<p>" +:+ attachment_image "a.png"
              +:+ url_image "//example.com/b.png"
              +:+ attachment_image "a.png" +:+ "</p>" +:+ nl)).
    vm_compute. reflexivity.
Defined.

(** C1 as stated fails: on a source that does not parse as a URL the
    claim promises the attachment fragment, and the call raises. *)
Lemma image_raises_on_unparsable_source :
  netloc (UrlParse := cpython_urlparse no_bracketed_host) "http://[" = None
  /\ image (U := cpython_urlparse no_bracketed_host) "http://["
       (Some "") (Some "") (new_renderer (VList [])) = None.
Proof. split; reflexivity. Qed.

(** C2.  Every call of [heading] sets [has_toc].  The call made while no
    top heading is captured and with level 1 stores its text as
    [top_heading] and returns the empty string; every other call returns
    the default rendering for its level and leaves [top_heading] alone.
    So over any sequence of calls the outputs are the default renderings
    except for the first level-1 call, and [top_heading] changes at most
    once: exactly once when nothing was captured before and the sequence
    has a level-1 call, whose text it then holds. *)
Theorem first_level1_heading_is_captured (R : HTMLRenderer) :
  (forall (text : string) (level : Z) (self : ConfluenceRenderer),
     heading text level self =
     Some (if negb (captured self) && (level =? 1)
           then ("", {| attachments := attachments self;
                        authors := authors self; has_toc := true;
                        top_heading := Some text |})
           else (super_heading text level,
                 {| attachments := attachments self;
                    authors := authors self; has_toc := true;
                    top_heading := top_heading self |})))
  /\ (forall (calls : list (string * Z)) (self : ConfluenceRenderer),
        headings calls self =
        Some (expected_headings (captured self) calls,
              after_headings self calls))
  /\ (forall (calls : list (string * Z)) (self : ConfluenceRenderer),
        top_heading_changes calls self =
        if negb (captured self) && bool_decide (first_h1 calls <> None)
        then 1%nat else O)
  /\ (forall (calls : list (string * Z)) (authors : value),
        top_heading (after_headings (new_renderer authors) calls) =
        first_h1 calls).
Proof.
  split; [|split; [|split]].
  - intros text level self. rewrite heading_run. unfold captured.
    now destruct (top_heading self).
  - apply headings_run.
  - apply top_heading_changes_run.
  - reflexivity.
Qed.

(** C3.  For every body and every front matter, [convtoconf] returns
    exactly when the rendering pass over the body returns, and the title
    it returns is the value of the front matter's [title] key when the key
    is present, else the text that the first level-1 heading of the body
    was called with when the body has one, else [None].  An absent front
    matter gives the result of the empty mapping, without an error of its
    own. *)
Theorem convtoconf_title (R : HTMLRenderer) (U : UrlParse) (Md : Markdown)
    (markdown : string) (front_matter : option (gmap string value)) :
  (exists (html : string) (attached : list string),
     convtoconf markdown front_matter =
     if blocks_accept (parse_markdown markdown)
     then Some (html, attached,
                match (match front_matter with Some d => d | None => ∅ end)
                        !! "title" with
                | Some v => v
                | None =>
                    match first_h1
                            (blocks_headings (parse_markdown markdown)) with
                    | Some text => VStr text
                    | None => VNone
                    end
                end)
     else None)
  /\ convtoconf markdown None = convtoconf markdown (Some ∅).
Proof.
  split; [|reflexivity].
  unfold convtoconf.
  set (fm := match front_matter with Some d => d | None => ∅ end).
  destruct (render_run (parse_markdown markdown)
              (new_renderer (dict_get fm "author_keys" (VList []))))
    as [html Hr].
  rewrite Hr. exists html. eexists.
  destruct (blocks_accept (parse_markdown markdown)); [|reflexivity].
  unfold dict_get. cbn [top_heading after_render add_attachments
    after_headings new_renderer].
  destruct (fm !! "title"); reflexivity.
Qed.

(** C6 (amended).  [block_quote] removes every opening and every closing
    paragraph tag from its argument exactly when the argument holds
    exactly one closing tag [</p>], however many opening tags it holds,
    and wraps the argument unchanged otherwise.  A single paragraph
    [<p>X</p>] whose text holds no [<] is therefore wrapped as [X], and
    two paragraphs are wrapped as they are. *)
Theorem block_quote_strips_on_one_closing_tag (R : HTMLRenderer) :
  (forall (content : string) (self : ConfluenceRenderer),
     block_quote content self =
     Some (super_block_quote
             (if Nat.eqb (count content "</p>") 1
              then replace (replace content "<p>" "") "</p>" ""
              else content), self))
  /\ (forall (X : string) (self : ConfluenceRenderer),
        all_chars (not_char "<"%char) X = true ->
        block_quote ("<p>" +:+ X +:+ "</p>") self =
        Some (super_block_quote X, self))
  /\ (forall self : ConfluenceRenderer,
        block_quote "<p>X</p>" self = Some (super_block_quote "X", self))
  /\ (forall self : ConfluenceRenderer,
        block_quote "<p>A</p><p>B</p>" self =
        Some (super_block_quote "<p>A</p><p>B</p>", self)).
Proof.
  split; [intros; apply block_quote_run|].
  split; [|split; reflexivity].
  intros X self HX. rewrite block_quote_run.
  now rewrite count_single_paragraph, replace_single_paragraph.
Qed.

Lemma block_quote_strips_on_one_closing_tag_witness :
  block_quote (R := html_defaults) ("<p>" +:+ "Doing nothing" +:+ "</p>")
    (new_renderer VNone) =
  Some (super_block_quote (HTMLRenderer := html_defaults) "Doing nothing",
        new_renderer VNone).
Proof.
  apply (proj1 (proj2 (block_quote_strips_on_one_closing_tag html_defaults))
           "Doing nothing" (new_renderer VNone)).
  reflexivity.
Defined.

(** C6 as stated fails: an argument with two opening tags and one closing
    tag, and one with no opening tag and one closing tag, do not hold
    exactly one opening and one closing tag, yet their tags are removed. *)
Lemma block_quote_ignores_opening_tags :
  count "<p>A<p>B</p>" "<p>" = 2%nat
  /\ count "<p>A<p>B</p>" "</p>" = 1%nat
  /\ block_quote (R := html_defaults) "<p>A<p>B</p>" (new_renderer VNone) =
     Some ("<blockquote>" +:+ nl +:+ "AB</blockquote>" +:+ nl,
           new_renderer VNone)
  /\ block_quote (R := html_defaults) "<p>A<p>B</p>" (new_renderer VNone) <>
     Some (super_block_quote (HTMLRenderer := html_defaults) "<p>A<p>B</p>",
           new_renderer VNone)
  /\ count "A</p>" "<p>" = 0%nat
  /\ block_quote (R := html_defaults) "A</p>" (new_renderer VNone) =
     Some ("<blockquote>" +:+ nl +:+ "A</blockquote>" +:+ nl,
           new_renderer VNone)
  /\ block_quote (R := html_defaults) "A</p>" (new_renderer VNone) <>
     Some (super_block_quote (HTMLRenderer := html_defaults) "A</p>",
           new_renderer VNone).
Proof.
  repeat (split; [first [reflexivity | vm_compute; discriminate]|]).
  vm_compute; discriminate.
Qed.

(** C7.  [block_mermaid] returns, for every diagram source, the
    external-image fragment whose URL is [https://mermaid.ink/img/]
    followed by the base64 encoding of the UTF-8 bytes of the JSON text of
    [{"code": code, "mermaid": {"theme": "default"}}]: the very fragment
    [image] returns for that URL.  The result is a function of the source
    alone, equal for any two renderer states, and [self] is returned
    unchanged, so no attachment is recorded.  The diagram of the
    repository's test gives the URL the test expects. *)
Theorem block_mermaid_is_pure :
  (forall (code : string) (self : ConfluenceRenderer),
     block_mermaid code self =
     Some (url_image ("https://mermaid.ink/img/"
                      +:+ b64encode (encode (dumps (mermaid_payload code)))),
           self))
  /\ (forall code : string,
        dumps (mermaid_payload code) =
        quoted "{'code': " +:+ json_string code
        +:+ quoted ", 'mermaid': {'theme': 'default'}}")
  /\ (forall (host_ok : string -> bool) (code : string)
             (title alt_text : option string) (self : ConfluenceRenderer),
        image (U := cpython_urlparse host_ok)
          ("https://mermaid.ink/img/"
           +:+ b64encode (encode (dumps (mermaid_payload code))))
          title alt_text self =
        block_mermaid code self)
  /\ (forall (code : string) (self1 self2 : ConfluenceRenderer),
        fst <$> block_mermaid code self1 = fst <$> block_mermaid code self2)
  /\ (forall self : ConfluenceRenderer,
        block_mermaid test_diagram self =
        Some (url_image test_diagram_url, self)).
Proof.
  split; [intros; apply block_mermaid_run|].
  split.
  { intros code. unfold mermaid_payload, json_string, dq.
    repeat (progress (simpl; rewrite ?app_assoc_s)). reflexivity. }
  split.
  { intros host_ok code title alt_text self.
    rewrite image_run, block_mermaid_run.
    cbn [netloc cpython_urlparse]. now rewrite mermaid_url_external. }
  split.
  { intros code self1 self2. now rewrite !block_mermaid_run. }
  intros self. rewrite block_mermaid_run. do 2 f_equal.
Qed.




(** C9.  [layout] returns the column macro of width [30%] around the
    table-of-contents fragment followed by the authors fragment,
    concatenated with the column macro of width [800px] around the
    content: two macros side by side.  The table-of-contents fragment is
    the heading and [toc] macro excluding [^(Authors|Table of Contents)$]
    when [has_toc] is set, and the empty string when it is not. *)
Theorem layout_two_sibling_columns (content : string)
    (self : ConfluenceRenderer) :
  layout content self =
  Some (column_macro "30%"
          ((if has_toc self then toc_macro else "")
           +:+ authors_fragment (authors self))
        +:+ column_macro "800px" content, self)
  /\ render_authors self = Some (authors_fragment (authors self), self)
  /\ toc_macro <> "".
Proof.
  split; [apply layout_run|]. split; [apply render_authors_run|].
  discriminate.
Qed.

(** C10.  Each method touches only its own fields of [self]: whenever
    it returns, [image] may have appended its source to the attachments
    and has changed nothing else; [heading] may change [has_toc] and
    [top_heading] and changes nothing else; [block_code],
    [block_mermaid], [block_quote], [render_authors] and [layout] return
    [self] as they got it, and so does [link] whenever it returns.  No
    method, and no pass over a document that returns, changes the authors
    or removes or reorders attachments: the old attachments stay as a
    prefix. *)
Theorem methods_frame (R : HTMLRenderer) (U : UrlParse) :
  (forall (src : string) (title alt_text : option string)
          (self : ConfluenceRenderer) (out : string)
          (self' : ConfluenceRenderer),
     image src title alt_text self = Some (out, self') ->
     has_toc self' = has_toc self
     /\ top_heading self' = top_heading self
     /\ authors self' = authors self
     /\ (attachments self' = attachments self
         \/ attachments self' = attachments self ++ [src]))
  /\ (forall (text : string) (level : Z) (self : ConfluenceRenderer),
        exists (out : string) (self' : ConfluenceRenderer),
          heading text level self = Some (out, self')
          /\ attachments self' = attachments self
          /\ authors self' = authors self)
  /\ (forall (code : string) (lang : option string)
             (self : ConfluenceRenderer),
        exists out : string, block_code code lang self = Some (out, self))
  /\ (forall (code : string) (self : ConfluenceRenderer),
        exists out : string, block_mermaid code self = Some (out, self))
  /\ (forall (content : string) (self : ConfluenceRenderer),
        exists out : string, block_quote content self = Some (out, self))
  /\ (forall (href : string) (title content : option string)
             (self : ConfluenceRenderer) (out : string)
             (self' : ConfluenceRenderer),
        link href title content self = Some (out, self') -> self' = self)
  /\ (forall self : ConfluenceRenderer,
        exists out : string, render_authors self = Some (out, self))
  /\ (forall (content : string) (self : ConfluenceRenderer),
        exists out : string, layout content self = Some (out, self))
  /\ (forall (doc : list block) (self : ConfluenceRenderer) (out : string)
             (self' : ConfluenceRenderer),
        render doc self = Some (out, self') ->
        authors self' = authors self
        /\ exists more : list string,
             attachments self' = attachments self ++ more).
Proof.
  split; [|split; [|split; [|split; [|split; [|split; [|split; [|split]]]]]]].
  - intros src title alt_text self out self'. rewrite image_run.
    destruct (netloc src) as [parsed_netloc|]; [|discriminate].
    destruct (truthy parsed_netloc); intros H; injection H as _ <-;
      cbn; auto.
  - intros text level self. rewrite heading_run.
    destruct (_ && _); eexists _, _; (split; [reflexivity|]); cbn; auto.
  - apply block_code_run.
  - intros. rewrite block_mermaid_run. eauto.
  - intros. rewrite block_quote_run. eauto.
  - intros href title content self out self'. rewrite link_run.
    destruct (netloc href) as [parsed_netloc|]; [|discriminate].
    destruct (truthy parsed_netloc); [|destruct content; [|discriminate]];
      intros H; now injection H as _ <-.
  - intros. rewrite render_authors_run. eauto.
  - intros. rewrite layout_run. eauto.
  - intros doc self out self' Hr.
    apply render_returns in Hr as [_ ->]. split; [reflexivity|].
    eexists. reflexivity.
Qed.

Lemma methods_frame_witness :
  (has_toc (add_attachments (new_renderer VNone) ["/a.png"]) =
     has_toc (new_renderer VNone)
   /\ top_heading (add_attachments (new_renderer VNone) ["/a.png"]) =
      top_heading (new_renderer VNone)
   /\ authors (add_attachments (new_renderer VNone) ["/a.png"]) =
      authors (new_renderer VNone)
   /\ (attachments (add_attachments (new_renderer VNone) ["/a.png"]) =
         attachments (new_renderer VNone)
       \/ attachments (add_attachments (new_renderer VNone) ["/a.png"]) =
          attachments (new_renderer VNone) ++ ["/a.png"]))
  /\ new_renderer VNone = new_renderer VNone
  /\ (authors (add_attachments (new_renderer VNone) ["/a.png"]) =
        authors (new_renderer VNone)
      /\ exists more : list string,
           attachments (add_attachments (new_renderer VNone) ["/a.png"]) =
           attachments (new_renderer VNone) ++ more).
Proof.
  pose proof (methods_frame html_defaults
                (cpython_urlparse no_bracketed_host))
    as (Himage & _ & _ & _ & _ & Hlink & _ & _ & Hpass).
  split; [|split].
  - apply (Himage "/a.png" (Some "") None (new_renderer VNone)
             (attachment_image "a.png")).
    reflexivity.
  - apply (Hlink "/posts/other" (Some "other") (Some "Other post")
             (new_renderer VNone) "Other post").
    reflexivity.
  - apply (Hpass [Leaf "paragraph" [Image "/a.png" "" None]]
             (new_renderer VNone)
             ("<p>" +:+ attachment_image "a.png" +:+ "</p>" +:+ nl)).
    vm_compute. reflexivity.
Defined.

(** ** The tests of the repository, run on the model *)

Section Tests.
#[local] Existing Instance html_defaults.
Context (host_ok : string -> bool).

Example testLocalImageTag :
  image (U := cpython_urlparse host_ok) "/images/example.png"
    (Some "") (Some "") (new_renderer (VList [])) =
  Some (quoted "<ac:image><ri:attachment ri:filename='example.png' /></ac:image>",
        add_attachments (new_renderer (VList [])) ["/images/example.png"]).
Proof. reflexivity. Qed.

Example testExternalImageTag :
  image (U := cpython_urlparse host_ok)
    "https://example.com/images/example.png" (Some "") (Some "")
    (new_renderer (VList [])) =
  Some (quoted "<ac:image><ri:url ri:value='"
        +:+ "https://example.com/images/example.png"
        +:+ quoted "' /></ac:image>",
        new_renderer (VList [])).
Proof. reflexivity. Qed.

Example testAuthorTag :
  render_authors (new_renderer (VList ["1234567890"])) =
  Some (quoted "<h1>Authors</h1><p><ac:structured-macro ac:name='profile-picture' ac:schema-version='1'>
                <ac:parameter ac:name='User'><ri:user ri:userkey='1234567890' /></ac:parameter>
            </ac:structured-macro>&nbsp;
            <ac:link><ri:user ri:userkey='1234567890' /></ac:link></p>",
        new_renderer (VList ["1234567890"])).
Proof. vm_compute. reflexivity. Qed.

Example testHeader_level1 :
  heading "test" 1 (new_renderer (VList [])) =
  Some ("", {| attachments := []; authors := []; has_toc := true;
               top_heading := Some "test" |}).
Proof. reflexivity. Qed.

Example testHeader_level2 :
  heading "test" 2 (new_renderer (VList [])) =
  Some ("<h2>test</h2>" +:+ nl,
        {| attachments := []; authors := []; has_toc := true;
           top_heading := None |}).
Proof. reflexivity. Qed.

Example testBlockQuote :
  block_quote "<p>Doing nothing is the hardest work of all.</p>"
    (new_renderer (VList [])) =
  Some ("<blockquote>" +:+ nl
        +:+ "Doing nothing is the hardest work of all.</blockquote>" +:+ nl,
        new_renderer (VList [])).
Proof. reflexivity. Qed.

Example testBlockQuoteMultiParagraph :
  block_quote "<p>Doing nothing...</p><p>Is the hardest work of all.</p>"
    (new_renderer (VList [])) =
  Some ("<blockquote>" +:+ nl
        +:+ "<p>Doing nothing...</p><p>Is the hardest work of all.</p></blockquote>"
        +:+ nl,
        new_renderer (VList [])).
Proof. reflexivity. Qed.

End Tests.

End RendererSpec.

(* ================================================================== *)
(** * Further properties of the splitter *)
(* ================================================================== *)

Module SplitterExtras.
Import Py PyFacts Splitter SplitterFacts Extras.

Lemma partitioned_line (st : scan_state) (done line : string) :
  partitioned st done -> partitioned (scan_line st line) (done +:+ line).
Proof.
  unfold partitioned, scan_line.
  intros [(Hin & Hraw & Hmd) | (Hin & Hne & closing & Hc & Hdone)].
  - rewrite Hin, Hraw, Hmd. cbn [andb].
    destruct (String.eqb (strip line) YAML_BOUNDARY) eqn:Eb;
      [destruct (truthy done) eqn:Et|]; cbn [in_yaml raw_yaml markdown].
    + right. split; [reflexivity|]. split.
      * unfold truthy in Et. apply negb_true_iff, String.eqb_neq in Et.
        exact Et.
      * exists line. split; [exact Eb|]. now rewrite app_nil_r_s.
    + left. auto.
    + left. auto.
  - rewrite Hin. cbn [andb].
    destruct (String.eqb (strip line) YAML_BOUNDARY);
      cbn [in_yaml raw_yaml markdown]; right;
      (split; [reflexivity|]); (split; [exact Hne|]);
      exists closing; (split; [exact Hc|]);
      now rewrite Hdone, !app_assoc_s.
Qed.

Lemma partitioned_scan (lines : list string) (st : scan_state) (done : string) :
  partitioned st done -> partitioned (scan lines st) (done +:+ cat lines).
Proof.
  revert st done; induction lines as [|l ls IH]; intros st done Hp.
  - cbn. now rewrite app_nil_r_s.
  - unfold scan in *. cbn [fold_left cat fold_right].
    change (fold_right String.append "" ls) with (cat ls).
    rewrite <- app_assoc_s. apply IH. now apply partitioned_line.
Qed.

(** X1.  The scan of [parse] cuts the document without losing text: when
    it ends, either no boundary closed the front matter, the whole
    document is front-matter text and the body is empty, or the document
    is the front-matter text, one dropped boundary line and the body text
    in this order, and the front-matter text is not empty. *)
Theorem scan_partitions_document (content : string) :
  partitioned (scan (readlines content) scan_init) content.
Proof.
  pose proof (partitioned_scan (readlines content) scan_init "") as H.
  rewrite cat_readlines in H. apply H. left. auto.
Qed.

(** X2.  A document in which no line after the first is a boundary line
    has no body: the whole text, a leading boundary line included, is
    handed to the YAML decoder and the body returned is empty. *)
Theorem unclosed_front_matter_has_no_body {Doc : Type}
    (yaml_load : string -> option Doc) (fs : gmap string string)
    (path content : string) :
  forallb (fun l => negb (is_boundary l)) (tl (readlines content)) = true ->
  fs !! path = Some content ->
  split_text content = (content, "")
  /\ parse yaml_load fs path =
     match yaml_load content with
     | None => inl YAMLError
     | Some front_matter => inr (front_matter, "")
     end.
Proof.
  intros Hnb Hfs.
  assert (Hs : split_text content = (content, "")).
  { unfold split_text. pose proof (cat_readlines content) as Hcat.
    destruct (readlines content) as [|l ls]; cbn [tl] in Hnb.
    - cbn in Hcat. subst content. reflexivity.
    - unfold scan. cbn [fold_left].
      assert (E : scan_line scan_init l =
                  {| raw_yaml := l; markdown := ""; in_yaml := true |}).
      { unfold scan_line, scan_init; cbn [in_yaml raw_yaml markdown].
        destruct (String.eqb (strip l) YAML_BOUNDARY); reflexivity. }
      rewrite E. fold (scan ls {| raw_yaml := l; markdown := "";
                                  in_yaml := true |}).
      rewrite scan_front by exact Hnb. cbn [raw_yaml markdown].
      cbn [cat fold_right] in Hcat. unfold cat. now rewrite Hcat. }
  split; [exact Hs|].
  rewrite (parse_split _ _ _ _ Hfs), Hs. reflexivity.
Qed.

Lemma unclosed_front_matter_has_no_body_witness :
  split_text ("---" +:+ nl +:+ flat_yaml) = ("---" +:+ nl +:+ flat_yaml, "")
  /\ parse flat_yaml_load (<["open.md" := "---" +:+ nl +:+ flat_yaml]> ∅)
       "open.md" =
     match flat_yaml_load ("---" +:+ nl +:+ flat_yaml) with
     | None => inl YAMLError
     | Some front_matter => inr (front_matter, "")
     end.
Proof.
  apply (unclosed_front_matter_has_no_body flat_yaml_load
           (<["open.md" := "---" +:+ nl +:+ flat_yaml]> ∅) "open.md"
           ("---" +:+ nl +:+ flat_yaml)); reflexivity.
Defined.

(** ** Trimming *)

Lemma lstrip_split (s : string) :
  exists ws : string, all_chars isspace ws = true /\ s = ws +:+ lstrip s.
Proof.
  induction s as [|c s (ws & Hws & Hs)].
  - exists "". auto.
  - cbn [lstrip]. destruct (isspace c) eqn:E.
    + exists (String c ws). cbn [all_chars String.append].
      rewrite E, Hws. split; [reflexivity | now rewrite <- Hs].
    + exists "". auto.
Qed.

Lemma rstrip_split (s : string) :
  exists ws : string, all_chars isspace ws = true /\ s = rstrip s +:+ ws.
Proof.
  induction s as [|c s (ws & Hws & Hs)].
  - exists "". auto.
  - cbn [rstrip]. destruct (rstrip s) as [|d r].
    + cbn [String.append] in Hs. subst s. destruct (isspace c) eqn:E.
      * exists (String c ws). cbn [all_chars String.append].
        now rewrite E, Hws.
      * exists ws. auto.
    + exists ws. split; [exact Hws|].
      change (String c s = String c (String d r +:+ ws)). now f_equal.
Qed.

Lemma lstrip_spaces (ws t : string) :
  all_chars isspace ws = true -> lstrip (ws +:+ t) = lstrip t.
Proof.
  induction ws as [|c ws IH]; [reflexivity|]. cbn [all_chars].
  intros H. apply andb_prop in H as [Hc Hws].
  cbn [String.append lstrip]. rewrite Hc. now apply IH.
Qed.

Lemma rstrip_all_spaces (ws : string) :
  all_chars isspace ws = true -> rstrip ws = "".
Proof.
  induction ws as [|c ws IH]; [reflexivity|]. cbn [all_chars].
  intros H. apply andb_prop in H as [Hc Hws].
  cbn [rstrip]. now rewrite (IH Hws), Hc.
Qed.

Lemma rstrip_spaces (t ws : string) :
  all_chars isspace ws = true -> rstrip (t +:+ ws) = rstrip t.
Proof.
  intros Hws. induction t as [|c t IH].
  - cbn [String.append]. now rewrite rstrip_all_spaces.
  - cbn [String.append rstrip]. now rewrite IH.
Qed.

(** X3.  A line is a boundary line exactly when it is [---] with any
    whitespace before and after it: indentation, trailing blanks and the
    line break do not matter, anything else on the line does. *)
Theorem boundary_line_modulo_whitespace (line : string) :
  is_boundary line = true <->
  exists before after : string,
    all_chars isspace before = true /\ all_chars isspace after = true /\
    line = before +:+ "---" +:+ after.
Proof.
  unfold is_boundary, strip. split.
  - intros H. apply String.eqb_eq in H.
    destruct (lstrip_split line) as (before & Hb & Hl).
    destruct (rstrip_split (lstrip line)) as (after & Ha & Hr).
    exists before, after. split; [exact Hb|]. split; [exact Ha|].
    rewrite H in Hr. unfold YAML_BOUNDARY in Hr.
    rewrite Hl at 1. now rewrite Hr.
  - intros (before & after & Hb & Ha & ->).
    rewrite lstrip_spaces by exact Hb.
    change (lstrip ("---" +:+ after)) with ("---" +:+ after).
    rewrite rstrip_spaces by exact Ha. reflexivity.
Qed.

Lemma lstrip_no_leading (s : string) : starts_with_space (lstrip s) = false.
Proof.
  induction s as [|c s IH]; [reflexivity|]. cbn [lstrip].
  destruct (isspace c) eqn:E; [exact IH | exact E].
Qed.

Lemma rstrip_keeps_start (s : string) :
  starts_with_space s = false -> starts_with_space (rstrip s) = false.
Proof.
  destruct s as [|c s]; [reflexivity|]. cbn [starts_with_space rstrip].
  intros Hc. destruct (rstrip s); [rewrite Hc|]; exact Hc || reflexivity.
Qed.

Lemma rstrip_no_trailing (s : string) : ends_with_space (rstrip s) = false.
Proof.
  induction s as [|c s IH]; [reflexivity|]. cbn [rstrip].
  destruct (rstrip s) as [|d r].
  - destruct (isspace c) eqn:E; [reflexivity | exact E].
  - exact IH.
Qed.

(** X4.  The body text that [parse] returns never starts and never ends
    with a whitespace character, whatever the document. *)
Theorem parsed_body_is_trimmed {Doc : Type}
    (yaml_load : string -> option Doc) (fs : gmap string string)
    (path : string) (front_matter : Doc) (body : string) :
  parse yaml_load fs path = inr (front_matter, body) ->
  starts_with_space body = false /\ ends_with_space body = false.
Proof.
  unfold parse. destruct (fs !! path) as [content|]; [|discriminate].
  destruct (yaml_load _); [|discriminate].
  intros H. injection H as _ <-. unfold strip. split.
  - apply rstrip_keeps_start, lstrip_no_leading.
  - apply rstrip_no_trailing.
Qed.

Lemma parsed_body_is_trimmed_witness :
  starts_with_space ("# Heading" +:+ nl +:+ nl +:+ "---" +:+ nl +:+ "content")
    = false
  /\ ends_with_space ("# Heading" +:+ nl +:+ nl +:+ "---" +:+ nl +:+ "content")
     = false.
Proof.
  apply (parsed_body_is_trimmed flat_yaml_load posts "one.md"
           (<["wiki" := "docs"]> (<["title" := "Test"]> ∅))).
  vm_compute. reflexivity.
Defined.

(** X5.  Building a document from a YAML block without boundary lines and
    a body, and splitting it again, gives the block back, with the line
    break that ended it and with the leading boundary line when there is
    one, and the body trimmed; boundary lines inside the body stay in
    the body. *)
Theorem split_gives_back_block_and_body (Y B : string) :
  forallb (fun l => negb (is_boundary l)) (readlines (Y +:+ nl)) = true ->
  split_text (doc_closing_only Y B) = (Y +:+ nl, strip B)
  /\ split_text (doc_one_leading Y B) =
     ("---" +:+ nl +:+ Y +:+ nl, strip B).
Proof.
  intros Hnb. split; [now apply split_closing_only|].
  unfold split_text.
  rewrite readlines_one_leading, readlines_closing_only.
  unfold scan. cbn [fold_left].
  change (scan_line scan_init ("---" +:+ nl))
    with {| raw_yaml := "---" +:+ nl; markdown := ""; in_yaml := true |}.
  rewrite fold_left_app.
  fold (scan (readlines (Y +:+ nl))
          {| raw_yaml := "---" +:+ nl; markdown := ""; in_yaml := true |}).
  rewrite scan_front by exact Hnb. rewrite cat_readlines. cbn [fold_left].
  assert (Hs : scan_line
            {| raw_yaml := ("---" +:+ nl) +:+ Y +:+ nl; markdown := "";
               in_yaml := true |} ("---" +:+ nl) =
            {| raw_yaml := ("---" +:+ nl) +:+ Y +:+ nl; markdown := "";
               in_yaml := false |}).
  { unfold scan_line. cbn [in_yaml raw_yaml markdown].
    replace (String.eqb (strip ("---" +:+ nl)) YAML_BOUNDARY) with true
      by reflexivity.
    rewrite truthy_app; [reflexivity|].
    intros H. apply app_eq_nil_s in H as [_ H]. discriminate. }
  rewrite Hs.
  fold (scan (readlines B)
          {| raw_yaml := ("---" +:+ nl) +:+ Y +:+ nl; markdown := "";
             in_yaml := false |}).
  rewrite scan_body, cat_readlines. reflexivity.
Qed.

Lemma split_gives_back_block_and_body_witness :
  split_text (doc_closing_only have_yaml have_markdown) =
    (have_yaml +:+ nl, strip have_markdown)
  /\ split_text (doc_one_leading have_yaml have_markdown) =
     ("---" +:+ nl +:+ have_yaml +:+ nl, strip have_markdown).
Proof.
  apply (split_gives_back_block_and_body have_yaml have_markdown).
  reflexivity.
Defined.

End SplitterExtras.

(* ================================================================== *)
(** * Further properties of the renderer *)
(* ================================================================== *)

Module RendererExtras.
Import Py PyFacts Renderer RendererFacts Extras.

Section Passes.
Context {R : HTMLRenderer} {U : UrlParse}.

Lemma captured_after_render (self : ConfluenceRenderer)
    (calls : list (string * Z)) (srcs : list string) :
  captured (after_render self calls srcs) =
  captured self || match first_h1 calls with Some _ => true | None => false end.
Proof.
  unfold captured, after_render, after_headings, add_attachments. cbn.
  destruct (top_heading self); [reflexivity|]. now destruct (first_h1 calls).
Qed.

(** The text a pass returns depends on [self] only through whether a top
    heading has been captured. *)
Lemma render_same_of_all (ns : list block) :
  Forall (fun n => forall s1 s2 : ConfluenceRenderer,
            captured s1 = captured s2 ->
            fst <$> render_block n s1 = fst <$> render_block n s2) ns ->
  forall s1 s2 : ConfluenceRenderer,
    captured s1 = captured s2 ->
    fst <$> render ns s1 = fst <$> render ns s2.
Proof.
  induction 1 as [|n ns Hn _ IH]; intros s1 s2 Hc; [reflexivity|].
  cbn [render]. unfold bind.
  destruct (render_block_ok n s1) as [a1 H1].
  destruct (render_block_ok n s2) as [a2 H2].
  specialize (Hn s1 s2 Hc). rewrite H1, H2 in Hn |- *.
  destruct (block_accepts n); [|reflexivity].
  cbn in Hn. injection Hn as <-.
  set (t1 := after_render s1 _ _). set (t2 := after_render s2 _ _).
  assert (Hc' : captured t1 = captured t2)
    by (unfold t1, t2; now rewrite !captured_after_render, Hc).
  specialize (IH t1 t2 Hc').
  destruct (render_run ns t1) as [b1 G1].
  destruct (render_run ns t2) as [b2 G2].
  rewrite G1, G2 in IH |- *.
  destruct (blocks_accept ns); [|reflexivity].
  cbn in IH |- *. now injection IH as <-.
Qed.

Lemma render_block_same (n : block) (s1 s2 : ConfluenceRenderer) :
  captured s1 = captured s2 ->
  fst <$> render_block n s1 = fst <$> render_block n s2.
Proof.
  revert s1 s2.
  induction n as [c l|c l|c IH|m c|m c IH] using block_nested_ind;
    intros s1 s2 Hc.
  - cbn [render_block]. unfold bind.
    rewrite !render_inlines_run.
    destruct (inlines_accept c); [|reflexivity].
    rewrite !heading_run.
    unfold captured in Hc. cbn [top_heading add_attachments].
    destruct (top_heading s1), (top_heading s2); try discriminate;
      destruct (l =? 1); reflexivity.
  - cbn [render_block]. unfold block_code.
    destruct (match l with Some l0 => String.eqb l0 "mermaid" | None => false end).
    + now rewrite !block_mermaid_run.
    + unfold lift. now rewrite format_code.
  - rewrite render_block_BlockQuote. unfold bind.
    pose proof (render_same_of_all c IH s1 s2 Hc) as Hs.
    destruct (render_run c s1) as [b1 G1].
    destruct (render_run c s2) as [b2 G2].
    rewrite G1, G2 in Hs |- *.
    destruct (blocks_accept c); [|reflexivity].
    cbn in Hs. injection Hs as <-.
    now rewrite !block_quote_run.
  - cbn [render_block]. unfold bind. rewrite !render_inlines_run.
    now destruct (inlines_accept c).
  - rewrite render_block_Container. unfold bind.
    pose proof (render_same_of_all c IH s1 s2 Hc) as Hs.
    destruct (render_run c s1) as [b1 G1].
    destruct (render_run c s2) as [b2 G2].
    rewrite G1, G2 in Hs |- *.
    destruct (blocks_accept c); [|reflexivity].
    cbn in Hs. now injection Hs as <-.
Qed.

Lemma render_same (ns : list block) (s1 s2 : ConfluenceRenderer) :
  captured s1 = captured s2 ->
  fst <$> render ns s1 = fst <$> render ns s2.
Proof.
  apply render_same_of_all, Forall_forall. intros n _ t1 t2.
  apply render_block_same.
Qed.

Context {Md : Markdown}.

(** X6.  [convtoconf] returns exactly when the pass over the body
    returns, and the attachments it returns are then the sources of the
    images of the body whose URL parse has no network location, in
    document order, duplicates kept, whatever the front matter is; images
    inside a suppressed top heading are recorded like any other. *)
Theorem convtoconf_attachments (markdown : string)
    (front_matter : option (gmap string value)) :
  exists (html : string) (title : value),
    convtoconf markdown front_matter =
    if blocks_accept (parse_markdown markdown)
    then Some (html,
               List.filter is_internal
                 (blocks_images (parse_markdown markdown)),
               title)
    else None.
Proof.
  unfold convtoconf.
  set (fm := match front_matter with Some d => d | None => ∅ end).
  destruct (render_run (parse_markdown markdown)
              (new_renderer (dict_get fm "author_keys" (VList []))))
    as [html Hr].
  rewrite Hr. exists html. eexists.
  destruct (blocks_accept (parse_markdown markdown)); reflexivity.
Qed.

(** X7.  Whether [convtoconf] returns, and the page text and the
    attachments it then returns, do not depend on the front matter: the
    author keys are stored in the renderer but never rendered by
    [convtoconf], and the title only decides the third component. *)
Theorem convtoconf_body_ignores_front_matter (markdown : string)
    (fm1 fm2 : option (gmap string value)) :
  option_map (fun r : string * list string * value => fst r)
    (convtoconf markdown fm1) =
  option_map (fun r : string * list string * value => fst r)
    (convtoconf markdown fm2).
Proof.
  unfold convtoconf.
  set (r1 := new_renderer _). set (r2 := new_renderer _).
  pose proof (render_same (parse_markdown markdown) r1 r2 eq_refl) as Hs.
  destruct (render_run (parse_markdown markdown) r1) as [a1 H1].
  destruct (render_run (parse_markdown markdown) r2) as [a2 H2].
  rewrite H1, H2 in Hs |- *.
  destruct (blocks_accept (parse_markdown markdown)); [|reflexivity].
  cbn in Hs. injection Hs as <-. reflexivity.
Qed.

(** X8.  After a pass over a document with a fresh renderer that
    returns, [layout] puts the table of contents in the sidebar exactly
    when the document has a heading, the suppressed top heading counting
    as one; the authors fragment is there in both cases. *)
Theorem layout_after_pass (doc : list block) (author_keys : value)
    (content html : string) (self : ConfluenceRenderer) :
  render doc (new_renderer author_keys) = Some (html, self) ->
  layout content self =
  Some (column_macro "30%"
          ((match blocks_headings doc with
            | [] => ""
            | _ => toc_macro
            end)
           +:+ authors_fragment (authors (new_renderer author_keys)))
        +:+ column_macro "800px" content, self).
Proof.
  intros Hr. apply render_returns in Hr as [_ ->]. rewrite layout_run.
  cbn [has_toc authors after_render add_attachments after_headings
       new_renderer].
  now destruct (blocks_headings doc).
Qed.

(** X13.  Inside a pass the engine hands [link] the rendered inner text
    in the place of its second argument and the title of the link in the
    place of its third: a link whose target has no network location
    renders as the escaped title, its inner text being dropped, and the
    pass raises when the link has no title. *)
Theorem internal_link_renders_title (href : string) (text : list inline)
    (title : option string) (self : ConfluenceRenderer) :
  netloc href = Some "" ->
  inlines_accept text = true ->
  render_inline (Link href text title) self =
  match title with
  | Some t =>
      Some (super_text t,
            add_attachments self
              (List.filter is_internal (inlines_images text)))
  | None => None
  end.
Proof.
  intros Hnet Hacc. rewrite render_inline_Link. unfold bind.
  rewrite render_inlines_run, Hacc, link_run, Hnet.
  cbn [truthy String.eqb negb]. now destruct title.
Qed.

End Passes.

Lemma layout_after_pass_witness :
  layout "body"
    {| attachments := []; authors := []; has_toc := true;
       top_heading := Some "Title" |} =
  Some (column_macro "30%"
          ((match blocks_headings (R := html_defaults)
                    (U := cpython_urlparse no_bracketed_host)
                    [Heading [Text "Title"] 1] with
            | [] => ""
            | _ => toc_macro
            end)
           +:+ authors_fragment (authors (new_renderer VNone)))
        +:+ column_macro "800px" "body",
        {| attachments := []; authors := []; has_toc := true;
           top_heading := Some "Title" |}).
Proof.
  apply (layout_after_pass (R := html_defaults)
           (U := cpython_urlparse no_bracketed_host)
           [Heading [Text "Title"] 1] VNone "body" "").
  vm_compute. reflexivity.
Defined.

Lemma internal_link_renders_title_witness :
  render_inline (R := html_defaults)
    (U := cpython_urlparse no_bracketed_host)
    (Link "/posts/other" [Text "other"] None) (new_renderer VNone) = None
  /\ render_inline (R := html_defaults)
       (U := cpython_urlparse no_bracketed_host)
       (Link "/posts/other" [Text "other"] (Some "T")) (new_renderer VNone) =
     Some ("T", new_renderer VNone).
Proof.
  split.
  - apply (internal_link_renders_title (R := html_defaults)
             (U := cpython_urlparse no_bracketed_host)
             "/posts/other" [Text "other"] None (new_renderer VNone));
      reflexivity.
  - apply (internal_link_renders_title (R := html_defaults)
             (U := cpython_urlparse no_bracketed_host)
             "/posts/other" [Text "other"] (Some "T") (new_renderer VNone));
      reflexivity.
Defined.

(** ** File names of attachments *)

Lemma rfind_spec (c : ascii) (p : string) :
  (rfind_char c p = -1 /\ all_chars (not_char c) p = true)
  \/ (exists dir name : string,
        p = dir +:+ String c name /\ all_chars (not_char c) name = true /\
        rfind_char c p = Z.of_nat (String.length dir)).
Proof.
  induction p as [|x p [[Hr Hp] | (dir & name & Hp & Hn & Hr)]].
  - left. auto.
  - cbn [rfind_char]. rewrite Hr. cbn [Z.leb Z.compare].
    destruct (Ascii.eqb x c) eqn:E.
    + right. exists "", p. apply Ascii.eqb_eq in E. subst x. auto.
    + left. split; [reflexivity|]. cbn [all_chars]. unfold not_char at 1.
      now rewrite E, Hp.
  - right. exists (String x dir), name. split; [now rewrite Hp|].
    split; [exact Hn|]. cbn [rfind_char String.length]. rewrite Hr.
    destruct (0 <=? Z.of_nat (String.length dir)) eqn:E; [lia|].
    apply Z.leb_gt in E. lia.
Qed.

(** X9.  The file name [image] gives an attachment never holds a slash,
    and the source is that name preceded by nothing or by a directory part
    that ends with a slash; a source that ends with a slash therefore
    gets the empty file name.  The full source is what is recorded. *)
Theorem attachment_name_is_last_segment (U : UrlParse)
    (src : string) (title alt_text : option string)
    (self : ConfluenceRenderer) :
  netloc src = Some "" ->
  exists name : string,
    image src title alt_text self =
    Some (attachment_image name, add_attachments self [src])
    /\ all_chars (not_char "/"%char) name = true
    /\ (src = name \/ exists dir : string, src = dir +:+ "/" +:+ name).
Proof.
  intros Hint. exists (basename src). rewrite image_run, Hint.
  cbn [truthy String.eqb negb].
  split; [reflexivity|]. unfold basename.
  destruct (rfind_spec "/"%char src) as [[Hr Hp] | (dir & name & Hp & Hn & Hr)].
  - rewrite Hr. cbn [Z.add Z.to_nat drop]. change (drop 0 src) with src.
    split; [exact Hp | now left].
  - rewrite Hr.
    replace (Z.to_nat (Z.of_nat (String.length dir) + 1))
      with (String.length (dir +:+ "/")).
    + assert (Hd : drop (String.length (dir +:+ "/")) src = name).
      { rewrite Hp.
        change (dir +:+ String "/"%char name) with (dir +:+ "/" +:+ name).
        rewrite <- app_assoc_s. apply drop_app. }
      rewrite Hd. split; [exact Hn|]. right. exists dir. exact Hp.
    + clear. induction dir as [|x dir IH]; [reflexivity|].
      cbn [String.append String.length]. rewrite IH. lia.
Qed.

Lemma attachment_name_is_last_segment_witness :
  exists name : string,
    image (U := cpython_urlparse no_bracketed_host) "static/img/"
      (Some "") (Some "") (new_renderer VNone) =
    Some (attachment_image name,
          add_attachments (new_renderer VNone) ["static/img/"])
    /\ all_chars (not_char "/"%char) name = true
    /\ ("static/img/" = name
        \/ exists dir : string, "static/img/" = dir +:+ "/" +:+ name).
Proof.
  apply (attachment_name_is_last_segment
           (cpython_urlparse no_bracketed_host) "static/img/"
           (Some "") (Some "") (new_renderer VNone)).
  reflexivity.
Defined.

(** X10.  [block_code] hands the language [mermaid], and only that
    spelling, to [block_mermaid]; for any other language it returns the
    code macro with the language, empty when none is given, and the code
    verbatim inside the CDATA section, whatever characters the code holds,
    and leaves [self] as it is. *)
Theorem block_code_macro_or_diagram (code : string) (lang : option string)
    (self : ConfluenceRenderer) :
  block_code code lang self =
  if is_mermaid lang then block_mermaid code self
  else Some (code_macro (or_empty lang) code, self).
Proof.
  unfold block_code, is_mermaid.
  destruct (match lang with Some l => String.eqb l "mermaid" | None => false end);
    [reflexivity|].
  unfold lift. now rewrite format_code.
Qed.

(** ** The diagram URL *)

Lemma get_all_chars (p : ascii -> bool) (s : string) (k : nat) (c : ascii) :
  all_chars p s = true -> String.get k s = Some c -> p c = true.
Proof.
  revert k; induction s as [|x s IH]; intros k Hs Hk; [discriminate|].
  cbn [all_chars] in Hs. apply andb_prop in Hs as [Hx Hs].
  destruct k as [|k]; cbn in Hk.
  - now injection Hk as <-.
  - now apply (IH k).
Qed.

Lemma b64_char_ok (n : Z) : is_b64 (b64_char n) = true.
Proof.
  unfold b64_char.
  destruct (String.get _ _) as [c|] eqn:E; [|reflexivity].
  eapply get_all_chars; [|exact E]. reflexivity.
Qed.

Lemma b64encode_alphabet (bs : string) :
  all_chars is_b64 (b64encode bs) = true
  /\ (String.length (b64encode bs) mod 4 = 0)%nat.
Proof.
  revert bs. fix IH 1. intros [|a [|b [|c rest]]].
  - split; reflexivity.
  - cbn [b64encode all_chars String.length]. rewrite !b64_char_ok.
    split; reflexivity.
  - cbn [b64encode all_chars String.length]. rewrite !b64_char_ok.
    split; reflexivity.
  - destruct (IH rest) as [Hc Hl].
    cbn [b64encode all_chars String.length]. rewrite !b64_char_ok, Hc.
    split; [reflexivity|].
    change (S (S (S (S (String.length (b64encode rest))))))
      with (4 + String.length (b64encode rest))%nat.
    rewrite <- Nat.Div0.add_mod_idemp_l. exact Hl.
Qed.

(** X11.  Whatever the diagram source holds, the part of the URL that
    [block_mermaid] appends to [https://mermaid.ink/img/] is made of
    letters, digits, [+], [/] and [=] only, in groups of four: no quote,
    angle bracket or space of the source reaches the [ri:value]
    attribute. *)
Theorem mermaid_url_is_base64 (code : string) (self : ConfluenceRenderer) :
  exists data : string,
    block_mermaid code self =
    Some (url_image ("https://mermaid.ink/img/" +:+ data), self)
    /\ all_chars is_b64 data = true
    /\ (String.length data mod 4 = 0)%nat.
Proof.
  eexists. split; [apply block_mermaid_run|]. apply b64encode_alphabet.
Qed.

Lemma json_escape_printable (c : ascii) :
  all_chars is_printable (json_escape c) = true.
Proof. destruct c as [[] [] [] [] [] [] [] []]; vm_compute; reflexivity. Qed.

Lemma json_escape_all_printable (s : string) :
  all_chars is_printable (json_escape_all s) = true.
Proof.
  induction s as [|c s IH]; [reflexivity|]. cbn [json_escape_all].
  now rewrite all_chars_app, json_escape_printable, IH.
Qed.

Lemma encode_printable (s : string) :
  all_chars is_printable s = true -> encode s = s.
Proof.
  induction s as [|c s IH]; [reflexivity|]. cbn [all_chars encode].
  intros H. apply andb_prop in H as [Hc Hs].
  unfold is_printable in Hc. apply andb_prop in Hc as [_ Hc].
  apply Z.leb_le in Hc.
  destruct (ord c <? 128) eqn:E; [now rewrite IH|].
  apply Z.ltb_ge in E. lia.
Qed.

(** X12.  The JSON text that [block_mermaid] encodes is printable ASCII
    whatever the diagram source holds: quotes, backslashes, control
    characters and characters above [~] are written as escapes, so its
    UTF-8 bytes are its characters. *)
Theorem mermaid_payload_is_ascii (code : string) :
  all_chars is_printable (dumps (mermaid_payload code)) = true
  /\ encode (dumps (mermaid_payload code)) = dumps (mermaid_payload code).
Proof.
  assert (H : all_chars is_printable (dumps (mermaid_payload code)) = true).
  { unfold mermaid_payload. cbn [dumps map fst snd join]. unfold json_string.
    rewrite !all_chars_app, !json_escape_all_printable. reflexivity. }
  split; [exact H | now apply encode_printable].
Qed.

End RendererExtras.
